(** * humba: fixed-width histograms -- dispatch layer and binning kernels

    A shallow embedding of [humba/core.py] (the two user-facing functions
    [histogram] and [mwv_histogram]) together with the binning kernels of
    [humba.jits] that they dispatch to.

    Numbers: array elements and the range bounds are exact rationals
    ([Q]); the rounding of IEEE floats, NaN and infinities are outside the
    model.  Python's unbounded [int] is [Z].  Assertions are enabled (the
    interpreter is not run with [-O]). *)

From Stdlib Require Import ZArith QArith Qround Qfield Lia String.
From stdpp Require Import base decidable option list.

Local Open Scope Z_scope.

(** ** NumPy arrays *)

(** The element types an array can carry; [float32] and [float64] are
    the two precisions the library has kernels for. *)
Inductive np_dtype : Type :=
  | bool_ | uint8 | int32 | int64
  | float16 | float32 | float64 | complex128.

#[global] Instance np_dtype_eq_dec : EqDecision np_dtype.
Proof. solve_decision. Defined.

(** An array is its element type, its [shape] tuple and its elements in
    row-major order. *)
Record ndarray : Type := mk_ndarray {
  dtype : np_dtype;
  shape : list nat;
  data  : list Q
}.

(** ** Exceptions and kernel invocations *)

Inductive exn : Type :=
  | ValueError (msg : string)
  | IndexError (msg : string)
  | AssertionError (msg : string)
  | TypeError (msg : string).

Inductive outcome (A : Type) : Type :=
  | Returned (a : A)
  | Raised (e : exn).
Arguments Returned {A} a.
Arguments Raised {A} e.

(** What becomes of an outcome when a returning computation goes on with
    [f]: an exception propagates. *)
Definition outcome_map {A B} (f : A -> B) (o : outcome A) : outcome B :=
  match o with
  | Returned a => Returned (f a)
  | Raised e => Raised e
  end.

(** The compiled routines of [humba.jits], by name: the two unweighted
    ones, and the four that take a weight array. *)
Inductive jit1 : Type := _hfloat64 | _hfloat32.
Inductive jit2 : Type :=
  | _hfloat64_weighted | _hfloat32_weighted
  | _hfloat64_multiweights | _hfloat32_multiweights.

(** The precision a routine is compiled for. *)
Definition jit1_precision (k : jit1) : np_dtype :=
  match k with _hfloat64 => float64 | _hfloat32 => float32 end.

Definition jit2_precision (k : jit2) : np_dtype :=
  match k with
  | _hfloat64_weighted | _hfloat64_multiweights => float64
  | _hfloat32_weighted | _hfloat32_multiweights => float32
  end.

Definition is_multiweights (k : jit2) : bool :=
  match k with
  | _hfloat64_multiweights | _hfloat32_multiweights => true
  | _ => false
  end.

(** One entry of the log per call into [humba.jits], with the arguments
    exactly as passed. *)
Inductive event : Type :=
  | Call1 (k : jit1) (x : ndarray) (bins : Z) (lo hi : Q) (flow : bool)
  | Call2 (k : jit2) (x w : ndarray) (bins : Z) (lo hi : Q) (flow : bool).

(** A computation invokes kernels and then returns or raises. *)
Definition comp (A : Type) : Type := (list event * outcome A)%type.

Definition ret {A} (a : A) : comp A := ([], Returned a).
Definition raise {A} (e : exn) : comp A := ([], Raised e).
Definition bind {A B} (m : comp A) (f : A -> comp B) : comp B :=
  match m with
  | (t, Returned a) => let '(t', r) := f a in (t ++ t', r)
  | (t, Raised e) => (t, Raised e)
  end.

Definition calls {A} (m : comp A) : list event := fst m.
Definition result {A} (m : comp A) : outcome A := snd m.

#[global] Instance comp_ret : MRet comp := @ret.
#[global] Instance comp_bind : MBind comp := fun A B f m => bind m f.

(** [assert cond, msg] *)
Definition assert_ (cond : bool) (msg : string) : comp unit :=
  if cond then ret tt else raise (AssertionError msg).

(** [a.shape[0]]: indexing the empty shape tuple of a 0-d array fails. *)
Definition shape0 (a : ndarray) : comp nat :=
  match shape a with
  | n :: _ => ret n
  | [] => raise (IndexError "tuple index out of range")
  end.

(** ** [numpy.linspace(start, stop, num)]

    NumPy's routine with its defaults ([endpoint=True]): [num] samples
    [start + i * step], the last one set to [stop]; a negative [num] is a
    [ValueError]. *)
Definition set_last (v : Q) (y : list Q) : list Q :=
  <[pred (length y) := v]> y.

Definition linspace (start stop : Q) (num : Z) : comp ndarray :=
  if num <? 0 then raise (ValueError "Number of samples must be non-negative")
  else
    let div := num - 1 in
    let delta := (stop - start)%Q in
    let y := (fun i => inject_Z (Z.of_nat i)) <$> seq 0 (Z.to_nat num) in
    let y :=
      if 0 <? div then
        let step := (delta / inject_Z div)%Q in
        if Qeq_bool step 0
        then (fun v => (v / inject_Z div * delta)%Q) <$> y
        else (fun v => (v * step)%Q) <$> y
      else (fun v => (v * delta)%Q) <$> y in
    let y := (fun v => (v + start)%Q) <$> y in
    let y := if 1 <? num then set_last stop y else y in
    ret {| dtype := float64; shape := [Z.to_nat num]; data := y |}.

(** ** The dispatch layer, [humba/core.py] *)

Section Dispatch.

(** [humba.jits] is compiled code outside this module: what its
    routines compute on given arguments, and whether they return or
    raise there, is a parameter here.  [cast] is NumPy's conversion of
    one element from a source to a target element type. *)
Variable run1 : jit1 -> ndarray -> Z -> Q -> Q -> bool -> outcome ndarray.
Variable run2 :
  jit2 -> ndarray -> ndarray -> Z -> Q -> Q -> bool ->
  outcome (ndarray * ndarray).
Variable cast : np_dtype -> np_dtype -> Q -> Q.

(** [a.astype(d)] *)
Definition astype (a : ndarray) (d : np_dtype) : ndarray :=
  {| dtype := d; shape := shape a; data := cast (dtype a) d <$> data a |}.

(** [hfunc(x, bins, lo, hi, flow)]: the routine is invoked, and what it
    returns or raises is the outcome of the call. *)
Definition call1 (hfunc : jit1) (x : ndarray) (bins : Z) (lo hi : Q)
    (flow : bool) : comp ndarray :=
  ([Call1 hfunc x bins lo hi flow], run1 hfunc x bins lo hi flow).

(** [hfunc(x, w, bins, lo, hi, flow)], likewise. *)
Definition call2 (hfunc : jit2) (x w : ndarray) (bins : Z) (lo hi : Q)
    (flow : bool) : comp (ndarray * ndarray) :=
  ([Call2 hfunc x w bins lo hi flow], run2 hfunc x w bins lo hi flow).

Definition histogram (x : ndarray) (bins : Z) (range : Q * Q)
    (weights : option ndarray) (flow : bool)
    : comp (ndarray * option ndarray * ndarray) :=
  edges ← linspace (fst range) (snd range) (bins + 1);
  match weights with
  | Some weights =>
      _ ← assert_ (bool_decide (shape x = shape weights))
              "x and weights must have identical shape";
      hfunc ← (if bool_decide (dtype x = float64) then ret _hfloat64_weighted
                else if bool_decide (dtype x = float32) then ret _hfloat32_weighted
                else raise (TypeError "dtype of input must be float32 or float64"));
      '(res, err) ← call2 hfunc x (astype weights (dtype x)) bins
                            (fst range) (snd range) flow;
      ret (res, Some err, edges)
  | None =>
      hfunc ← (if bool_decide (dtype x = float64) then ret _hfloat64
                else if bool_decide (dtype x = float32) then ret _hfloat32
                else raise (TypeError "dtype of input must be float32 or float64"));
      res ← call1 hfunc x bins (fst range) (snd range) flow;
      ret (res, None, edges)
  end.

Definition mwv_histogram (x weights : ndarray) (bins : Z) (range : Q * Q)
    (flow : bool) : comp (ndarray * ndarray * ndarray) :=
  edges ← linspace (fst range) (snd range) (bins + 1);
  n ← shape0 x;
  m ← shape0 weights;
  _ ← assert_ (bool_decide (n = m)) "weights shape is not compatible with x";
  hfunc ← (if bool_decide (dtype weights = float64) then ret _hfloat64_multiweights
            else if bool_decide (dtype weights = float32) then ret _hfloat32_multiweights
            else raise (TypeError "dtype of input must be float32 or float64"));
  '(res, err) ← call2 hfunc (astype x (dtype weights)) weights bins
                        (fst range) (snd range) flow;
  ret (res, err, edges).

End Dispatch.

(** ** The binning kernels, [humba.jits] *)

Module jits.

Local Open Scope Q_scope.

(** Modelled from the spec: [humba.jits] is not among the sources; the
    data model's [bin_width = (hi - lo) / bins]. *)
Definition bin_width (bins : nat) (lo hi : Q) : Q :=
  (hi - lo) / inject_Z (Z.of_nat bins).

(** Modelled from the spec: [humba.jits] is not among the sources; the
    kernels' [idx = floor((x - lo) / bin_width)]. *)
Definition bin_idx (bins : nat) (lo hi x : Q) : Z :=
  Qfloor ((x - lo) / bin_width bins lo hi).

(** Modelled from the spec: [humba.jits] is not among the sources; where
    the index formula puts a sample: in a bin, below the range or at or
    above its upper end. *)
Inductive placement : Type :=
  | InRange (idx : nat)
  | Underflow
  | Overflow.

(** Modelled from the spec: [humba.jits] is not among the sources; the
    three cases [0 <= idx < bins], [idx < 0] and [idx >= bins] of the
    kernels' algorithm. *)
Definition place (bins : nat) (lo hi x : Q) : placement :=
  let idx := bin_idx bins lo hi x in
  if ((0 <=? idx) && (idx <? Z.of_nat bins))%Z then InRange (Z.to_nat idx)
  else if (idx <? 0)%Z then Underflow
  else Overflow.

(** Modelled from the spec: [humba.jits] is not among the sources; the
    flow policy: the bin a sample is accumulated into, or [None] when
    it is dropped. *)
Definition target (bins : nat) (lo hi : Q) (flow : bool) (x : Q)
    : option nat :=
  match place bins lo hi x with
  | InRange idx => Some idx
  | Underflow => if flow then Some 0%nat else None
  | Overflow => if flow then Some (bins - 1)%nat else None
  end.

(** Fresh output buffers: [n] zeros, and [n] rows of [m] zeros. *)
Definition zeros (n : nat) : list Q := replicate n 0.
Definition zeros2 (n m : nat) : list (list Q) := replicate n (zeros m).

(** Modelled from the spec: [humba.jits] is not among the sources; the
    unweighted kernel (4.1): one pass over the samples, [count[idx]]
    incremented by 1. *)
Definition bin_counts (samples : list Q) (bins : nat) (lo hi : Q)
    (flow : bool) : list Q :=
  foldl (fun count x =>
           match target bins lo hi flow x with
           | Some idx => alter (fun c => c + 1) idx count
           | None => count
           end)
        (zeros bins) samples.

(** A weight matrix: [cols] columns, one row per sample. *)
Record matrix : Type := mk_matrix {
  cols : nat;
  rows : list (list Q)
}.

(** Every row has [n] entries. *)
Definition tall (n : nat) (m : list (list Q)) : Prop :=
  Forall (fun r => length r = n) m.

(** Column [j] of a list of rows. *)
Definition column (j : nat) (m : list (list Q)) : list Q :=
  (fun r => nth j r 0) <$> m.

(** [sum(counts)] *)
Definition Qsum (l : list Q) : Q := foldr Qplus 0 l.

Section Kernels.

(** The square root of the element precision; no rational function
    computes it, so it is a parameter. *)
Variable sqrt : Q -> Q.

(** Modelled from the spec: [humba.jits] is not among the sources;
    the accumulation step of the single-weight kernel (4.2):
    [counts[idx] += weight] and [sumsq[idx] += weight*weight]. *)
Definition accumulate (bins : nat) (lo hi : Q) (flow : bool)
    (acc : list Q * list Q) (xw : Q * Q) : list Q * list Q :=
  let '(counts, sumsq) := acc in
  let '(x, weight) := xw in
  match target bins lo hi flow x with
  | Some idx =>
      (alter (fun c => c + weight) idx counts,
       alter (fun s => s + weight * weight) idx sumsq)
  | None => (counts, sumsq)
  end.

(** Modelled from the spec: [humba.jits] is not among the sources;
    the single-weight kernel (4.2), [errors[idx] = sqrt(sumsq[idx])]
    after the pass. *)
Definition bin_weighted (samples weights : list Q) (bins : nat)
    (lo hi : Q) (flow : bool) : list Q * list Q :=
  let '(counts, sumsq) :=
    foldl (accumulate bins lo hi flow) (zeros bins, zeros bins)
          (zip samples weights) in
  (counts, sqrt <$> sumsq).

(** Modelled from the spec: [humba.jits] is not among the sources;
    the inner loop of the multi-weight kernel (4.3): for every column
    [j] in [0..M], [counts[idx][j] += weights[row][j]] and
    [sumsq[idx][j] += weights[row][j]^2]. *)
Definition accumulate_row (M idx : nat) (wrow : list Q)
    (acc : list (list Q) * list (list Q))
    : list (list Q) * list (list Q) :=
  foldl (fun '(counts, sumsq) j =>
           (alter (alter (fun c => c + nth j wrow 0) j) idx counts,
            alter (alter (fun s => s + nth j wrow 0 ^ 2) j) idx sumsq))
        acc (seq 0 M).

(** Modelled from the spec: [humba.jits] is not among the sources;
    the multi-weight kernel (4.3): the bin of a sample is resolved
    once and shared by all columns. *)
Definition bin_multiweighted (samples : list Q) (weights : matrix)
    (bins : nat) (lo hi : Q) (flow : bool)
    : list (list Q) * list (list Q) :=
  let M := cols weights in
  let '(counts, sumsq) :=
    foldl (fun acc '(x, wrow) =>
             match target bins lo hi flow x with
             | Some idx => accumulate_row M idx wrow acc
             | None => acc
             end)
          (zeros2 bins M, zeros2 bins M)
          (zip samples (rows weights)) in
  (counts, (fun r : list Q => sqrt <$> r) <$> sumsq).

End Kernels.

(** *** The compiled routines, as the dispatch layer calls them *)

(** The number of weights per sample in a weight array of shape
    [(N, ...)]. *)
Definition row_width (w : ndarray) : nat := foldr Nat.mul 1%nat (tail (shape w)).

(** Modelled from the spec: [humba.jits] is not among the sources; the
    weight matrix of the data model, read off a weight array of shape
    [(N, ...)]: [N] rows in row-major order. *)
Definition weight_matrix (w : ndarray) : matrix :=
  {| cols := row_width w;
     rows := reshape (replicate (hd 0%nat (shape w)) (row_width w)) (data w) |}.

(** Modelled from the spec: [humba.jits] is not among the sources; the
    routines [_hfloat64] and [_hfloat32] as the unweighted kernel on the
    elements of [x], the result carrying the routine's precision.  The
    spec gives the kernels no failure, so the routine returns. *)
Definition run1 (k : jit1) (x : ndarray) (bins : Z) (lo hi : Q)
    (flow : bool) : outcome ndarray :=
  Returned
    {| dtype := jit1_precision k;
       shape := [Z.to_nat bins];
       data := bin_counts (data x) (Z.to_nat bins) lo hi flow |}.

(** Modelled from the spec: [humba.jits] is not among the sources; the
    four weighted routines as the single-weight and the multi-weight
    kernel on the elements of [x] and [w], the results carrying the
    routine's precision and, for the multi-weight ones, the shape
    [(bins, M)].  The spec gives the kernels no failure, so the routine
    returns. *)
Definition run2 (sqrt : Q -> Q) (k : jit2) (x w : ndarray) (bins : Z)
    (lo hi : Q) (flow : bool) : outcome (ndarray * ndarray) :=
  if is_multiweights k then
    let '(counts, errors) :=
      bin_multiweighted sqrt (data x) (weight_matrix w) (Z.to_nat bins)
                        lo hi flow in
    let sh := [Z.to_nat bins; row_width w] in
    Returned
      ({| dtype := jit2_precision k; shape := sh; data := concat counts |},
       {| dtype := jit2_precision k; shape := sh; data := concat errors |})
  else
    let '(counts, errors) :=
      bin_weighted sqrt (data x) (data w) (Z.to_nat bins) lo hi flow in
    Returned
      ({| dtype := jit2_precision k; shape := [Z.to_nat bins]; data := counts |},
       {| dtype := jit2_precision k; shape := [Z.to_nat bins]; data := errors |}).

(** Exact rationals need no rounding: the conversion used in the
    examples below. *)
Definition exact_cast (_ _ : np_dtype) (q : Q) : Q := q.

(** The integer square root of the integer part: the computable
    stand-in for [sqrt] used in the examples below. *)
Definition isqrt (q : Q) : Q := inject_Z (Z.sqrt (Qfloor q)).

End jits.

(** The two precisions the library has kernels for. *)
Definition supported (d : np_dtype) : Prop := d = float32 \/ d = float64.

(** The precision of the routine an entry of the log names. *)
Definition kernel_precision (ev : event) : np_dtype :=
  match ev with
  | Call1 k _ _ _ _ _ => jit1_precision k
  | Call2 k _ _ _ _ _ _ => jit2_precision k
  end.

(** What is claimed of the edge array for [bins] bins over [(lo, hi)]:
    [bins + 1] elements, the [i]-th at [lo + i * (hi - lo) / bins], so
    that with at least one bin the first is [lo] and the last is [hi]. *)
Definition evenly_spaced (lo hi : Q) (bins : Z) (edges : ndarray) : Prop :=
  Z.of_nat (length (data edges)) = bins + 1 /\
  shape edges = [length (data edges)] /\
  (forall i : nat, Z.of_nat i <= bins ->
     (nth i (data edges) 0 ==
      lo + inject_Z (Z.of_nat i) * ((hi - lo) / inject_Z bins))%Q) /\
  (1 <= bins ->
     (nth 0 (data edges) 0 == lo)%Q /\
     nth (Z.to_nat bins) (data edges) 0%Q = hi).

(** Proof steps for a Python [if] whose test is known to hold, or to
    fail. *)
Ltac taken H := rewrite (bool_decide_eq_true_2 _ H).
Ltac not_taken H := rewrite (bool_decide_eq_false_2 _ H).

(** ** Example calls

    The dispatch layer over the kernels above, and a few arrays. *)
Module examples.

Definition histogram :=
  histogram jits.run1 (jits.run2 jits.isqrt) jits.exact_cast.
Definition mwv_histogram :=
  mwv_histogram (jits.run2 jits.isqrt) jits.exact_cast.

(** Three float64 samples in one bin, and float32 weights for them. *)
Definition x3 : ndarray :=
  {| dtype := float64; shape := [3%nat]; data := [1; 1; 1]%Q |}.
Definition w3 : ndarray :=
  {| dtype := float32; shape := [3%nat]; data := [2; 3; 5]%Q |}.

(** The same weights as a column of shape [(3, 1)]. *)
Definition w3_column : ndarray :=
  {| dtype := float32; shape := [3%nat; 1%nat]; data := [2; 3; 5]%Q |}.

(** Integer samples, and a weight array one element short. *)
Definition x3_int : ndarray :=
  {| dtype := int64; shape := [3%nat]; data := [1; 2; 3]%Q |}.
Definition w2 : ndarray :=
  {| dtype := float64; shape := [2%nat]; data := [1; 1]%Q |}.

(** Two integer samples and a 2 x 2 float32 weight matrix. *)
Definition x2_int : ndarray :=
  {| dtype := int64; shape := [2%nat]; data := [1; 1]%Q |}.
Definition w2x2 : ndarray :=
  {| dtype := float32; shape := [2%nat; 2%nat]; data := [2; 10; 3; 20]%Q |}.

End examples.

(** Further arrays for the examples: a 0-dimensional sample array,
    float32 samples, and integer and float64 weights for three
    samples. *)
Module more_examples.

Definition x0d : ndarray :=
  {| dtype := float64; shape := []; data := [1]%Q |}.
Definition x3_f32 : ndarray :=
  {| dtype := float32; shape := [3%nat]; data := [1; 1; 1]%Q |}.
Definition w3_int : ndarray :=
  {| dtype := int64; shape := [3%nat]; data := [2; 3; 5]%Q |}.
Definition w3_f64 : ndarray :=
  {| dtype := float64; shape := [3%nat]; data := [2; 3; 5]%Q |}.

End more_examples.

(** * Properties of the binning kernels *)

Section KernelFacts.

Import jits.
Local Open Scope Q_scope.

(** ** The index formula at the two ends of the range *)


Lemma inject_Z_nonzero z : z <> 0%Z -> ~ inject_Z z == 0.
Proof. unfold Qeq. simpl. lia. Qed.




Lemma place_in_range bins lo hi x idx :
  place bins lo hi x = InRange idx -> (idx < bins)%nat.
Proof.
  unfold place.
  destruct (Z.leb_spec 0 (bin_idx bins lo hi x)),
           (Z.ltb_spec (bin_idx bins lo hi x) (Z.of_nat bins)); simpl;
    try (destruct (_ <? 0)%Z; discriminate).
  intros [= <-]. lia.
Qed.

(** With flow on, every sample has a bin. *)
Lemma target_flow bins lo hi x :
  (0 < bins)%nat ->
  exists idx, target bins lo hi true x = Some idx /\ (idx < bins)%nat.
Proof.
  intros Hb. unfold target.
  destruct (place bins lo hi x) eqn:E.
  - exists idx. split; [reflexivity | eapply place_in_range; eassumption].
  - exists 0%nat. split; [reflexivity | assumption].
  - exists (bins - 1)%nat. split; [reflexivity | lia].
Qed.


(** ** Sums of counts *)

Lemma Qsum_cons a l : Qsum (a :: l) = a + Qsum l.
Proof. reflexivity. Qed.

Lemma Qsum_alter_incr (w : Q) (l : list Q) (i : nat) :
  (i < length l)%nat -> Qsum (alter (fun c => c + w) i l) == Qsum l + w.
Proof.
  revert i. induction l as [|a l IH]; intros [|i] Hi; cbn [length] in Hi;
    try lia.
  - change (Qsum (a + w :: l) == Qsum (a :: l) + w).
    rewrite !Qsum_cons. ring.
  - change (Qsum (a :: alter (fun c => c + w) i l) == Qsum (a :: l) + w).
    rewrite !Qsum_cons, IH by lia. ring.
Qed.

Lemma Qsum_zeros n : Qsum (zeros n) == 0.
Proof.
  induction n as [|n IH]; [reflexivity |].
  change (0 + Qsum (zeros n) == 0). rewrite IH. reflexivity.
Qed.

Lemma count_fold_flow bins lo hi samples (count : list Q) :
  (0 < bins)%nat -> length count = bins ->
  let out := foldl (fun count x =>
                      match target bins lo hi true x with
                      | Some idx => alter (fun c => c + 1) idx count
                      | None => count
                      end) count samples in
  length out = bins /\
  Qsum out == Qsum count + inject_Z (Z.of_nat (length samples)).
Proof.
  intros Hb. revert count.
  induction samples as [|x samples IH]; intros count Hlen;
    cbn [foldl length].
  - split; [assumption | change (inject_Z (Z.of_nat 0)) with 0; ring].
  - destruct (target_flow bins lo hi x Hb) as (idx & -> & Hidx).
    destruct (IH (alter (fun c => c + 1) idx count)) as [IH1 IH2].
    { rewrite length_alter. assumption. }
    split; [exact IH1 |].
    rewrite IH2, Qsum_alter_incr by lia.
    rewrite Nat2Z.inj_succ. unfold Z.succ. rewrite inject_Z_plus.
    change (inject_Z 1) with 1. ring.
Qed.






(** C7: with flow on and at least one bin, the unweighted counts add up
    to the number of samples: no sample is dropped. *)
Theorem flow_conserves_samples (samples : list Q) (bins : nat) (lo hi : Q) :
  (0 < bins)%nat ->
  Qsum (bin_counts samples bins lo hi true)
  == inject_Z (Z.of_nat (length samples)).
Proof.
  intros Hb. unfold bin_counts.
  destruct (count_fold_flow bins lo hi samples (zeros bins) Hb) as [_ Hsum].
  { apply length_replicate. }
  rewrite Hsum, Qsum_zeros. ring.
Qed.

Lemma flow_conserves_samples_witness :
  Qsum (bin_counts [-1; 0; 5; 99 # 10; 10; 11] 10 0 10 true) == 6.
Proof. apply (flow_conserves_samples [-1; 0; 5; 99 # 10; 10; 11] 10 0 10). lia. Defined.

(** ** One column of the multi-weight pass *)

Lemma nth_alter_eq (g : Q -> Q) (j : nat) (r : list Q) :
  (j < length r)%nat -> nth j (alter g j r) 0 = g (nth j r 0).
Proof.
  intros Hj. rewrite !nth_lookup, list_lookup_alter_eq.
  destruct (lookup_lt_is_Some_2 r j Hj) as [v ->]. reflexivity.
Qed.

Lemma nth_alter_ne (g : Q -> Q) (j k : nat) (r : list Q) :
  j <> k -> nth j (alter g k r) 0 = nth j r 0.
Proof.
  intros Hne. rewrite !nth_lookup, list_lookup_alter_ne by congruence.
  reflexivity.
Qed.

(** Altering one row of a matrix, seen from column [j]. *)
Lemma column_alter (F : list Q -> list Q) (G : Q -> Q) (j idx : nat)
    (m : list (list Q)) :
  Forall (fun r => nth j (F r) 0 = G (nth j r 0)) m ->
  column j (alter F idx m) = alter G idx (column j m).
Proof.
  intros HF. unfold column.
  apply (list_fmap_alter (fun r => nth j r 0)). exact HF.
Qed.

Lemma tall_alter n (g : Q -> Q) (k idx : nat) m :
  tall n m -> tall n (alter (alter g k) idx m).
Proof.
  unfold tall. intros H. apply Forall_alter; [exact H |].
  intros r _ Hr. rewrite length_alter. exact Hr.
Qed.

Lemma tall_zeros2 bins n : tall n (zeros2 bins n).
Proof.
  unfold tall, zeros2, zeros. apply Forall_replicate, length_replicate.
Qed.

Lemma column_zeros2 j bins n : column j (zeros2 bins n) = zeros bins.
Proof.
  unfold column, zeros2, zeros. rewrite fmap_replicate. f_equal.
  rewrite nth_lookup. destruct (replicate n 0 !! j) as [v|] eqn:E;
    [apply lookup_replicate in E as [-> _] |]; reflexivity.
Qed.

(** Applying [f] entrywise, seen from column [j]. *)
Lemma column_entrywise (f : Q -> Q) (j n : nat) (m : list (list Q)) :
  (j < n)%nat -> tall n m ->
  column j ((fun r : list Q => f <$> r) <$> m) = f <$> column j m.
Proof.
  intros Hj Hm. unfold column. rewrite <- !list_fmap_compose.
  apply Forall_fmap_ext. eapply Forall_impl; [exact Hm |].
  intros r Hr. cbv beta in Hr. unfold compose.
  rewrite !nth_lookup, list_lookup_fmap.
  destruct (lookup_lt_is_Some_2 r j ltac:(lia)) as [v ->]. reflexivity.
Qed.

(** One sweep over the columns [js], seen from column [j]. *)
Lemma sweep_column (g : nat -> Q -> Q) (n j idx : nat) (js : list nat)
    (m : list (list Q)) :
  NoDup js -> (j < n)%nat -> tall n m ->
  let m' := foldl (fun acc k => alter (alter (g k) k) idx acc) m js in
  tall n m' /\
  column j m' = if decide (j ∈ js) then alter (g j) idx (column j m)
                else column j m.
Proof.
  intros Hnd Hj. revert m.
  induction Hnd as [|k js Hk Hnd IH]; intros m Hm; cbn [foldl].
  - split; [assumption | reflexivity].
  - destruct (IH (alter (alter (g k) k) idx m)) as [IH1 IH2].
    { apply tall_alter, Hm. }
    split; [exact IH1 |]. rewrite IH2.
    destruct (decide (j = k)) as [<- | Hne].
    + rewrite decide_False by assumption.
      rewrite decide_True by (apply elem_of_cons; left; reflexivity).
      apply column_alter.
      eapply Forall_impl; [exact Hm |].
      intros r Hr. cbv beta in Hr. apply nth_alter_eq. lia.
    + assert (E : column j (alter (alter (g k) k) idx m) = column j m).
      { rewrite (column_alter _ (fun q => q)).
        - apply list_alter_id. reflexivity.
        - apply Forall_true. intros r. apply nth_alter_ne, Hne. }
      rewrite E.
      destruct (decide (j ∈ js)) as [Hin | Hout].
      * rewrite decide_True by (apply elem_of_cons; right; assumption).
        reflexivity.
      * rewrite decide_False; [reflexivity |].
        intros Hin'. apply elem_of_cons in Hin' as [? | ?]; contradiction.
Qed.

(** The two accumulators of the inner loop do not interact. *)
Lemma accumulate_row_split (n idx : nat) (wrow : list Q) counts sumsq :
  accumulate_row n idx wrow (counts, sumsq) =
  (foldl (fun acc k => alter (alter (fun c => c + nth k wrow 0) k) idx acc)
         counts (seq 0 n),
   foldl (fun acc k => alter (alter (fun s => s + nth k wrow 0 ^ 2) k) idx acc)
         sumsq (seq 0 n)).
Proof.
  unfold accumulate_row. generalize (seq 0 n) as js. intros js.
  revert counts sumsq. induction js as [|k js IH]; intros counts sumsq.
  - reflexivity.
  - cbn [foldl]. apply IH.
Qed.

Lemma accumulate_row_column (n j idx : nat) (wrow : list Q) counts sumsq :
  (j < n)%nat -> tall n counts -> tall n sumsq ->
  let '(counts', sumsq') := accumulate_row n idx wrow (counts, sumsq) in
  tall n counts' /\ tall n sumsq' /\
  column j counts' = alter (fun c => c + nth j wrow 0) idx (column j counts) /\
  column j sumsq' =
    alter (fun s => s + nth j wrow 0 * nth j wrow 0) idx (column j sumsq).
Proof.
  intros Hj Hc Hs. rewrite accumulate_row_split.
  destruct (sweep_column (fun k c => c + nth k wrow 0) n j idx (seq 0 n) counts)
    as [Hc1 Hc2]; [apply NoDup_seq | assumption | assumption |].
  destruct (sweep_column (fun k s => s + nth k wrow 0 ^ 2) n j idx (seq 0 n) sumsq)
    as [Hs1 Hs2]; [apply NoDup_seq | assumption | assumption |].
  rewrite decide_True in Hc2, Hs2 by (apply elem_of_seq; lia).
  repeat split; assumption.
Qed.

(** The whole pass, seen from column [j], is the single-weight pass on
    that column. *)
Lemma multi_fold_column (n j bins : nat) (lo hi : Q) (flow : bool)
    (samples : list Q) (wrows : list (list Q)) counts sumsq :
  (j < n)%nat -> tall n counts -> tall n sumsq ->
  let '(counts', sumsq') :=
    foldl (fun acc '(x, wrow) =>
             match target bins lo hi flow x with
             | Some idx => accumulate_row n idx wrow acc
             | None => acc
             end)
          (counts, sumsq) (zip samples wrows) in
  tall n sumsq' /\
  (column j counts', column j sumsq') =
  foldl (accumulate bins lo hi flow) (column j counts, column j sumsq)
        (zip samples (column j wrows)).
Proof.
  intros Hj. revert wrows counts sumsq.
  induction samples as [|x samples IH]; intros wrows counts sumsq Hc Hs.
  - split; [assumption | reflexivity].
  - destruct wrows as [|wrow wrows]; [split; [assumption | reflexivity] |].
    change (zip (x :: samples) (wrow :: wrows))
      with ((x, wrow) :: zip samples wrows).
    change (zip (x :: samples) (column j (wrow :: wrows)))
      with ((x, nth j wrow 0) :: zip samples (column j wrows)).
    cbn [foldl accumulate].
    destruct (target bins lo hi flow x) as [idx|].
    + pose proof (accumulate_row_column n j idx wrow counts sumsq Hj Hc Hs)
        as Hrow.
      destruct (accumulate_row n idx wrow (counts, sumsq)) as [c1 s1].
      destruct Hrow as (Hc1 & Hs1 & <- & <-).
      apply IH; assumption.
    + apply IH; assumption.
Qed.

(** C8: for every column [j] of the weight matrix, column [j] of the
    multi-weight kernel's counts and errors are the counts and errors of
    the single-weight kernel run on the same samples with weight column
    [j]. *)
Theorem multiweight_equals_columnwise (sqrt : Q -> Q) (samples : list Q)
    (weights : matrix) (bins : nat) (lo hi : Q) (flow : bool) (j : nat) :
  (j < cols weights)%nat ->
  (column j (fst (bin_multiweighted sqrt samples weights bins lo hi flow)),
   column j (snd (bin_multiweighted sqrt samples weights bins lo hi flow)))
  = bin_weighted sqrt samples (column j (rows weights)) bins lo hi flow.
Proof.
  intros Hj. unfold bin_multiweighted, bin_weighted.
  pose proof (multi_fold_column (cols weights) j bins lo hi flow samples
                (rows weights) (zeros2 bins (cols weights))
                (zeros2 bins (cols weights)) Hj
                (tall_zeros2 _ _) (tall_zeros2 _ _)) as Hfold.
  destruct (foldl _ (zeros2 _ _, zeros2 _ _) _) as [counts sumsq].
  destruct Hfold as [Htall Hfold]. rewrite !column_zeros2 in Hfold.
  rewrite <- Hfold. cbn [fst snd].
  rewrite (column_entrywise sqrt j (cols weights)) by assumption.
  reflexivity.
Qed.

Lemma multiweight_equals_columnwise_witness :
  let W := {| cols := 2; rows := [[2; 10]; [3; 20]] |} in
  (column 1 (fst (bin_multiweighted isqrt [1; 1] W 1 0 2 false)),
   column 1 (snd (bin_multiweighted isqrt [1; 1] W 1 0 2 false)))
  = bin_weighted isqrt [1; 1] [10; 20] 1 0 2 false.
Proof.
  intros W.
  apply (multiweight_equals_columnwise isqrt [1; 1] W 1 0 2 false 1).
  unfold W; cbn [cols]; lia.
Defined.

End KernelFacts.

(** * Properties of [numpy.linspace] *)

Lemma linspace_negative a b num :
  num < 0 ->
  linspace a b num = raise (ValueError "Number of samples must be non-negative").
Proof.
  intros H. unfold linspace. destruct (Z.ltb_spec num 0); [reflexivity | lia].
Qed.

(** The [i]-th sample before the last one is overwritten. *)
Lemma linspace_sample (scale : Q -> Q) (start : Q) (n i : nat) :
  (i < n)%nat ->
  ((fun v => (v + start)%Q) <$>
     (scale <$> ((fun i => inject_Z (Z.of_nat i)) <$> seq 0 n))) !! i
  = Some (scale (inject_Z (Z.of_nat i)) + start)%Q.
Proof.
  intros Hi. rewrite !list_lookup_fmap, lookup_seq_lt by assumption.
  reflexivity.
Qed.

Lemma linspace_nonneg a b num :
  0 <= num ->
  exists e, linspace a b num = ret e /\
    dtype e = float64 /\ shape e = [Z.to_nat num] /\
    length (data e) = Z.to_nat num /\
    (forall i : nat, (i < Z.to_nat num)%nat ->
       (nth i (data e) 0 ==
        a + inject_Z (Z.of_nat i) * ((b - a) / inject_Z (num - 1)))%Q) /\
    (1 < num -> data e !! (Z.to_nat num - 1)%nat = Some b).
Proof.
  intros Hnum. unfold linspace.
  destruct (Z.ltb_spec num 0) as [? | _]; [lia |].
  eexists. split; [reflexivity |]. cbn [dtype shape data].
  split; [reflexivity |]. split; [reflexivity |].
  set (n := Z.to_nat num).
  set (y0 := (fun i => inject_Z (Z.of_nat i)) <$> seq 0 n).
  set (y1 := if 0 <? num - 1 then _ else _).
  set (y := (fun v => (v + a)%Q) <$> y1).
  assert (Hlen : length y = n).
  { subst y y1 y0.
    destruct (0 <? num - 1); [destruct (Qeq_bool _ _) |];
      rewrite !length_fmap, length_seq; reflexivity. }
  assert (Hy : forall i : nat, (i < n)%nat ->
            exists v, y !! i = Some v /\
            (v == a + inject_Z (Z.of_nat i) * ((b - a) / inject_Z (num - 1)))%Q).
  { intros i Hi. subst y y1 y0.
    destruct (Z.ltb_spec 0 (num - 1)) as [Hdiv | Hdiv].
    - pose proof (inject_Z_nonzero (num - 1) ltac:(lia)) as Hnz.
      destruct (Qeq_bool _ _);
        rewrite linspace_sample by assumption; eexists; (split; [reflexivity |]).
      + field. exact Hnz.
      + field. exact Hnz.
    - rewrite linspace_sample by assumption. eexists. split; [reflexivity |].
      assert (i = 0%nat) as -> by lia. change (inject_Z (Z.of_nat 0)) with 0%Q.
      ring. }
  split; [| split].
  - destruct (1 <? num); [unfold set_last; rewrite length_insert |]; exact Hlen.
  - intros i Hi. rewrite nth_lookup.
    destruct (Z.ltb_spec 1 num) as [Hgt | Hle].
    + unfold set_last. rewrite Hlen.
      destruct (decide (i = pred n)) as [-> | Hne].
      * rewrite list_lookup_insert_eq by lia. unfold default; cbn [from_option id].
        pose proof (inject_Z_nonzero (num - 1) ltac:(lia)) as Hnz.
        replace (Z.of_nat (pred n)) with (num - 1) by lia.
        field. exact Hnz.
      * rewrite list_lookup_insert_ne by congruence.
        destruct (Hy i Hi) as (v & -> & Hv). unfold default; cbn [from_option id].
        exact Hv.
    + destruct (Hy i Hi) as (v & -> & Hv). unfold default; cbn [from_option id].
      exact Hv.
  - intros Hgt. destruct (Z.ltb_spec 1 num) as [_ | ?]; [| lia].
    unfold set_last. rewrite Hlen.
    replace (n - 1)%nat with (pred n) by lia.
    apply list_lookup_insert_eq. lia.
Qed.

Lemma linspace_cases a b num :
  (num < 0 /\
   linspace a b num = raise (ValueError "Number of samples must be non-negative"))
  \/ (0 <= num /\ exists e, linspace a b num = ret e).
Proof.
  destruct (Z.lt_ge_cases num 0) as [Hlt | Hge].
  - left. split; [assumption | apply linspace_negative; assumption].
  - right. split; [assumption |].
    destruct (linspace_nonneg a b num Hge) as (e & He & _). eauto.
Qed.

(** * Properties of the dispatch layer *)

Lemma bind_ret {A B} (a : A) (f : A -> comp B) : (ret a ≫= f) = f a.
Proof.
  unfold mbind, comp_bind, bind, ret. destruct (f a) as [t r]. reflexivity.
Qed.

Lemma bind_raise {A B} (e : exn) (f : A -> comp B) : (raise e ≫= f) = raise e.
Proof. reflexivity. Qed.

Lemma ret_inj {A} (a b : A) : ret a = ret b -> a = b.
Proof. unfold ret. congruence. Qed.

Section DispatchFacts.

Variable run1 : jit1 -> ndarray -> Z -> Q -> Q -> bool -> outcome ndarray.
Variable run2 :
  jit2 -> ndarray -> ndarray -> Z -> Q -> Q -> bool ->
  outcome (ndarray * ndarray).
Variable cast : np_dtype -> np_dtype -> Q -> Q.

Lemma bind_call1 {B} k x bins lo hi flow (f : ndarray -> comp B) :
  (call1 run1 k x bins lo hi flow ≫= f) =
  match run1 k x bins lo hi flow with
  | Returned a => (Call1 k x bins lo hi flow :: calls (f a), result (f a))
  | Raised e => ([Call1 k x bins lo hi flow], Raised e)
  end.
Proof.
  unfold mbind, comp_bind, bind, call1, calls, result.
  destruct (run1 _ _ _ _ _ _) as [a | e]; [| reflexivity].
  destruct (f a) as [t r]. reflexivity.
Qed.

Lemma bind_call2 {B} k x w bins lo hi flow (f : ndarray * ndarray -> comp B) :
  (call2 run2 k x w bins lo hi flow ≫= f) =
  match run2 k x w bins lo hi flow with
  | Returned a => (Call2 k x w bins lo hi flow :: calls (f a), result (f a))
  | Raised e => ([Call2 k x w bins lo hi flow], Raised e)
  end.
Proof.
  unfold mbind, comp_bind, bind, call2, calls, result.
  destruct (run2 _ _ _ _ _ _ _) as [a | e]; [| reflexivity].
  destruct (f a) as [t r]. reflexivity.
Qed.

(** The paths through the weighted branch of [histogram]: the three
    failures before the kernel, and the kernel call, whose outcome is the
    outcome of the whole call. *)
Lemma histogram_weighted_paths x bins lo hi w flow :
  let m := histogram run1 run2 cast x bins (lo, hi) (Some w) flow in
  (bins + 1 < 0 /\
   m = raise (ValueError "Number of samples must be non-negative")) \/
  (0 <= bins + 1 /\ shape x <> shape w /\
   m = raise (AssertionError "x and weights must have identical shape")) \/
  (0 <= bins + 1 /\ shape x = shape w /\
   dtype x <> float32 /\ dtype x <> float64 /\
   m = raise (TypeError "dtype of input must be float32 or float64")) \/
  (0 <= bins + 1 /\ shape x = shape w /\
   exists k edges,
     jit2_precision k = dtype x /\ is_multiweights k = false /\
     linspace lo hi (bins + 1) = ret edges /\
     m = ([Call2 k x (astype cast w (dtype x)) bins lo hi flow],
          outcome_map (fun r => (fst r, Some (snd r), edges))
            (run2 k x (astype cast w (dtype x)) bins lo hi flow))).
Proof.
  intros m. subst m. unfold histogram. cbn [fst snd].
  destruct (linspace_cases lo hi (bins + 1))
    as [[Hneg Hlin] | [Hnum [edges Hlin]]]; rewrite Hlin.
  { left. split; [assumption | apply bind_raise]. }
  right. rewrite bind_ret. unfold assert_.
  destruct (decide (shape x = shape w)) as [Hshape | Hshape].
  2: { left. not_taken Hshape.
       repeat (split; [assumption |]). apply bind_raise. }
  right. taken Hshape. rewrite bind_ret.
  destruct (decide (dtype x = float64)) as [H64 | H64].
  { right. taken H64. rewrite bind_ret, bind_call2.
    repeat (split; [assumption |]).
    exists _hfloat64_weighted, edges.
    split; [symmetry; exact H64 |]. split; [reflexivity |].
    split; [reflexivity |].
    destruct (run2 _ _ _ _ _ _ _) as [[res err] | e]; reflexivity. }
  not_taken H64.
  destruct (decide (dtype x = float32)) as [H32 | H32].
  { right. taken H32. rewrite bind_ret, bind_call2.
    repeat (split; [assumption |]).
    exists _hfloat32_weighted, edges.
    split; [symmetry; exact H32 |]. split; [reflexivity |].
    split; [reflexivity |].
    destruct (run2 _ _ _ _ _ _ _) as [[res err] | e]; reflexivity. }
  left. not_taken H32.
  repeat (split; [assumption |]). apply bind_raise.
Qed.

(** The paths through the unweighted branch of [histogram]. *)
Lemma histogram_unweighted_paths x bins lo hi flow :
  let m := histogram run1 run2 cast x bins (lo, hi) None flow in
  (bins + 1 < 0 /\
   m = raise (ValueError "Number of samples must be non-negative")) \/
  (0 <= bins + 1 /\ dtype x <> float32 /\ dtype x <> float64 /\
   m = raise (TypeError "dtype of input must be float32 or float64")) \/
  (0 <= bins + 1 /\
   exists k edges,
     jit1_precision k = dtype x /\
     linspace lo hi (bins + 1) = ret edges /\
     m = ([Call1 k x bins lo hi flow],
          outcome_map (fun res => (res, None, edges))
            (run1 k x bins lo hi flow))).
Proof.
  intros m. subst m. unfold histogram. cbn [fst snd].
  destruct (linspace_cases lo hi (bins + 1))
    as [[Hneg Hlin] | [Hnum [edges Hlin]]]; rewrite Hlin.
  { left. split; [assumption | apply bind_raise]. }
  right. rewrite bind_ret.
  destruct (decide (dtype x = float64)) as [H64 | H64].
  { right. taken H64. rewrite bind_ret, bind_call1.
    split; [assumption |]. exists _hfloat64, edges.
    split; [symmetry; exact H64 |]. split; [reflexivity |].
    destruct (run1 _ _ _ _ _ _) as [res | e]; reflexivity. }
  not_taken H64.
  destruct (decide (dtype x = float32)) as [H32 | H32].
  { right. taken H32. rewrite bind_ret, bind_call1.
    split; [assumption |]. exists _hfloat32, edges.
    split; [symmetry; exact H32 |]. split; [reflexivity |].
    destruct (run1 _ _ _ _ _ _) as [res | e]; reflexivity. }
  left. not_taken H32.
  repeat (split; [assumption |]). apply bind_raise.
Qed.

(** The paths through [mwv_histogram]. *)
Lemma mwv_histogram_paths x w bins lo hi flow :
  let m := mwv_histogram run2 cast x w bins (lo, hi) flow in
  (bins + 1 < 0 /\
   m = raise (ValueError "Number of samples must be non-negative")) \/
  (0 <= bins + 1 /\ (shape x = [] \/ shape w = []) /\
   m = raise (IndexError "tuple index out of range")) \/
  (0 <= bins + 1 /\
   exists n sx n' sw, shape x = n :: sx /\ shape w = n' :: sw /\
     ((n <> n' /\
       m = raise (AssertionError "weights shape is not compatible with x")) \/
      (n = n' /\ dtype w <> float32 /\ dtype w <> float64 /\
       m = raise (TypeError "dtype of input must be float32 or float64")) \/
      (n = n' /\
       exists k edges,
         jit2_precision k = dtype w /\ is_multiweights k = true /\
         linspace lo hi (bins + 1) = ret edges /\
         m = ([Call2 k (astype cast x (dtype w)) w bins lo hi flow],
              outcome_map (fun r => (r, edges))
                (run2 k (astype cast x (dtype w)) w bins lo hi flow))))).
Proof.
  intros m. subst m. unfold mwv_histogram. cbn [fst snd].
  destruct (linspace_cases lo hi (bins + 1))
    as [[Hneg Hlin] | [Hnum [edges Hlin]]]; rewrite Hlin.
  { left. split; [assumption | apply bind_raise]. }
  right. rewrite bind_ret. unfold shape0.
  destruct (shape x) as [|n sx] eqn:Hx.
  { left. split; [assumption |]. split; [left; reflexivity | apply bind_raise]. }
  rewrite bind_ret.
  destruct (shape w) as [|n' sw] eqn:Hw.
  { left. split; [assumption |]. split; [right; reflexivity | apply bind_raise]. }
  rewrite bind_ret. right. split; [assumption |].
  exists n, sx, n', sw. split; [reflexivity |]. split; [reflexivity |].
  unfold assert_.
  destruct (decide (n = n')) as [Hn | Hn].
  2: { left. not_taken Hn. split; [assumption | apply bind_raise]. }
  right. taken Hn. rewrite bind_ret.
  destruct (decide (dtype w = float64)) as [H64 | H64].
  { right. taken H64. rewrite bind_ret, bind_call2.
    split; [assumption |]. exists _hfloat64_multiweights, edges.
    split; [symmetry; exact H64 |]. split; [reflexivity |].
    split; [reflexivity |].
    destruct (run2 _ _ _ _ _ _ _) as [[res err] | e]; reflexivity. }
  not_taken H64.
  destruct (decide (dtype w = float32)) as [H32 | H32].
  { right. taken H32. rewrite bind_ret, bind_call2.
    split; [assumption |]. exists _hfloat32_multiweights, edges.
    split; [symmetry; exact H32 |]. split; [reflexivity |].
    split; [reflexivity |].
    destruct (run2 _ _ _ _ _ _ _) as [[res err] | e]; reflexivity. }
  left. not_taken H32.
  repeat (split; [assumption |]). apply bind_raise.
Qed.

Lemma linspace_evenly_spaced lo hi bins edges :
  linspace lo hi (bins + 1) = ret edges -> evenly_spaced lo hi bins edges.
Proof.
  intros Hlin.
  destruct (linspace_cases lo hi (bins + 1)) as [[_ E] | [Hnum _]].
  { rewrite E in Hlin. discriminate. }
  destruct (linspace_nonneg lo hi (bins + 1) Hnum)
    as (e & He & _ & Hsh & Hlen & Hnth & Hlast).
  rewrite He in Hlin. apply ret_inj in Hlin. subst e.
  replace (bins + 1 - 1) with bins in Hnth by lia.
  unfold evenly_spaced. rewrite Hlen, Hsh.
  split; [lia |]. split; [reflexivity |].
  split; [intros i Hi; apply Hnth; lia |].
  intros Hb. split.
  - rewrite (Hnth 0%nat) by lia. change (inject_Z (Z.of_nat 0)) with 0%Q. ring.
  - rewrite nth_lookup.
    replace (Z.to_nat bins) with (Z.to_nat (bins + 1) - 1)%nat by lia.
    rewrite Hlast by lia. reflexivity.
Qed.

Lemma jit1_supported k : supported (jit1_precision k).
Proof. destruct k; [right | left]; reflexivity. Qed.

Lemma jit2_supported k : supported (jit2_precision k).
Proof. destruct k; (right; reflexivity) || (left; reflexivity). Qed.

Lemma unsupported_not_supported d :
  d <> float32 -> d <> float64 -> ~ supported d.
Proof. intros H32 H64 [? | ?]; contradiction. Qed.

(** An unsupported sample precision stops [histogram] before any kernel. *)
Lemma histogram_unsupported x bins lo hi weights flow :
  dtype x <> float32 -> dtype x <> float64 ->
  calls (histogram run1 run2 cast x bins (lo, hi) weights flow) = [] /\
  exists e,
    result (histogram run1 run2 cast x bins (lo, hi) weights flow) = Raised e /\
    (0 <= bins + 1 ->
     (forall w, weights = Some w -> shape x = shape w) ->
     e = TypeError "dtype of input must be float32 or float64").
Proof.
  intros H32 H64.
  pose proof (unsupported_not_supported _ H32 H64) as Hns.
  destruct weights as [w|].
  - destruct (histogram_weighted_paths x bins lo hi w flow)
      as [(Hb & ->) | [(Hb & Hs & ->) | [(Hb & Hs & _ & _ & ->)
         | (_ & _ & k & edges & Hk & _)]]].
    + split; [reflexivity |]. eexists. split; [reflexivity |]. intros; lia.
    + split; [reflexivity |]. eexists. split; [reflexivity |].
      intros _ Hsame. destruct Hs. apply Hsame. reflexivity.
    + split; [reflexivity |]. eexists. split; [reflexivity |]. reflexivity.
    + destruct Hns. rewrite <- Hk. apply jit2_supported.
  - destruct (histogram_unweighted_paths x bins lo hi flow)
      as [(Hb & ->) | [(Hb & _ & _ & ->) | (_ & k & edges & Hk & _)]].
    + split; [reflexivity |]. eexists. split; [reflexivity |]. intros; lia.
    + split; [reflexivity |]. eexists. split; [reflexivity |]. reflexivity.
    + destruct Hns. rewrite <- Hk. apply jit1_supported.
Qed.

(** An unsupported weight precision stops [mwv_histogram] before any
    kernel. *)
Lemma mwv_histogram_unsupported x w bins lo hi flow :
  dtype w <> float32 -> dtype w <> float64 ->
  calls (mwv_histogram run2 cast x w bins (lo, hi) flow) = [] /\
  exists e,
    result (mwv_histogram run2 cast x w bins (lo, hi) flow) = Raised e /\
    (0 <= bins + 1 ->
     (exists n sx sw, shape x = n :: sx /\ shape w = n :: sw) ->
     e = TypeError "dtype of input must be float32 or float64").
Proof.
  intros H32 H64.
  pose proof (unsupported_not_supported _ H32 H64) as Hns.
  destruct (mwv_histogram_paths x w bins lo hi flow)
    as [(Hb & ->) | [(Hb & Hs & ->) | (Hb & n & sx & n' & sw & Hx & Hw &
         [(Hn & ->) | [(Hn & _ & _ & ->) | (_ & k & edges & Hk & _)]])]].
  - split; [reflexivity |]. eexists. split; [reflexivity |]. intros; lia.
  - split; [reflexivity |]. eexists. split; [reflexivity |].
    intros _ (n & sx & sw & Hx & Hw). destruct Hs; congruence.
  - split; [reflexivity |]. eexists. split; [reflexivity |].
    intros _ (m & sx' & sw' & Hx' & Hw'). congruence.
  - split; [reflexivity |]. eexists. split; [reflexivity |]. reflexivity.
  - destruct Hns. rewrite <- Hk. apply jit2_supported.
Qed.

(** ** The claims about the dispatch layer *)

(** C1: whenever [histogram] returns, its second output is [None] exactly
    when no weights were supplied; with weights it is the error array the
    single-weight kernel returned.  Whenever [mwv_histogram] returns, its
    second output is the error array the multi-weight kernel returned. *)
Theorem error_iff_weights x bins range flow :
  (forall weights res err edges,
     result (histogram run1 run2 cast x bins range weights flow)
       = Returned (res, err, edges) ->
     (err = None <-> weights = None) /\
     (forall w, weights = Some w ->
        exists k err', is_multiweights k = false /\
          run2 k x (astype cast w (dtype x)) bins (fst range) (snd range) flow
            = Returned (res, err') /\
          err = Some err')) /\
  (forall weights res err edges,
     result (mwv_histogram run2 cast x weights bins range flow)
       = Returned (res, err, edges) ->
     exists k, is_multiweights k = true /\
       run2 k (astype cast x (dtype weights)) weights bins
            (fst range) (snd range) flow
         = Returned (res, err)).
Proof.
  destruct range as [lo hi]. cbn [fst snd]. split.
  - intros [w|] res err edges Hres.
    + destruct (histogram_weighted_paths x bins lo hi w flow)
        as [(_ & E) | [(_ & _ & E) | [(_ & _ & _ & _ & E)
           | (_ & _ & k & edges' & _ & Hk & _ & E)]]];
        rewrite E in Hres; try discriminate.
      cbn [result snd] in Hres.
      destruct (run2 k _ _ _ _ _ _) as [[res' err'] | e] eqn:Hrun;
        [| discriminate].
      injection Hres as <- <- <-.
      split; [split; discriminate |].
      intros w' [= <-]. exists k, err'.
      split; [exact Hk |]. split; [exact Hrun | reflexivity].
    + destruct (histogram_unweighted_paths x bins lo hi flow)
        as [(_ & E) | [(_ & _ & _ & E) | (_ & k & edges' & _ & _ & E)]];
        rewrite E in Hres; try discriminate.
      cbn [result snd] in Hres.
      destruct (run1 k _ _ _ _ _) as [res' | e]; [| discriminate].
      injection Hres as <- <- <-.
      split; [split; reflexivity | discriminate].
  - intros w res err edges Hres.
    destruct (mwv_histogram_paths x w bins lo hi flow)
      as [(_ & E) | [(_ & _ & E) | (_ & n & sx & n' & sw & _ & _ &
           [(_ & E) | [(_ & _ & _ & E) | (_ & k & edges' & _ & Hk & _ & E)]])]];
      rewrite E in Hres; try discriminate.
    cbn [result snd] in Hres. exists k. split; [exact Hk |].
    destruct (run2 k _ _ _ _ _ _) as [[res' err'] | e]; [| discriminate].
    injection Hres as <- <- <-. reflexivity.
Qed.

(** C2: every kernel call made by the weighted [histogram] passes [x]
    unchanged and [weights] cast to the dtype of [x]; every kernel call
    made by [mwv_histogram] passes [weights] unchanged and [x] cast to
    the dtype of [weights]; and a call that returns has made exactly one
    such kernel call. *)
Theorem casts_to_governing_dtype x w bins range flow :
  (forall ev,
     In ev (calls (histogram run1 run2 cast x bins range (Some w) flow)) ->
     exists k, is_multiweights k = false /\
       ev = Call2 k x (astype cast w (dtype x)) bins (fst range) (snd range) flow /\
       dtype (astype cast w (dtype x)) = dtype x) /\
  (forall r,
     result (histogram run1 run2 cast x bins range (Some w) flow) = Returned r ->
     length (calls (histogram run1 run2 cast x bins range (Some w) flow)) = 1%nat) /\
  (forall ev,
     In ev (calls (mwv_histogram run2 cast x w bins range flow)) ->
     exists k, is_multiweights k = true /\
       ev = Call2 k (astype cast x (dtype w)) w bins (fst range) (snd range) flow /\
       dtype (astype cast x (dtype w)) = dtype w) /\
  (forall r,
     result (mwv_histogram run2 cast x w bins range flow) = Returned r ->
     length (calls (mwv_histogram run2 cast x w bins range flow)) = 1%nat).
Proof.
  destruct range as [lo hi]. cbn [fst snd].
  destruct (histogram_weighted_paths x bins lo hi w flow)
    as [(_ & E) | [(_ & _ & E) | [(_ & _ & _ & _ & E)
       | (_ & _ & k & edges' & _ & Hk & _ & E)]]];
    destruct (mwv_histogram_paths x w bins lo hi flow)
      as [(_ & E') | [(_ & _ & E') | (_ & n & sx & n' & sw & _ & _ &
           [(_ & E') | [(_ & _ & _ & E') | (_ & k' & edges'' & _ & Hk' & _ & E')]])]];
    rewrite E, E'; cbn [calls result fst snd raise];
    repeat split;
    try (intros ev []; fail); try discriminate; try reflexivity;
    intros ev [<- | []]; eexists; (split; [eassumption |]); split; reflexivity.
Qed.

(** C3, as amended: a governing dtype other than float32 and float64
    makes the call fail without any kernel being invoked, and the failure
    is the type error whenever the edges could be built and the shape
    assertion passed; every kernel that is invoked is the variant compiled
    for the governing dtype, and one is invoked whenever that dtype is
    supported, the edges could be built and the shape assertion passed. *)
Theorem unsupported_dtype_fails_before_kernel x bins range flow :
  (forall weights, dtype x <> float32 -> dtype x <> float64 ->
     calls (histogram run1 run2 cast x bins range weights flow) = [] /\
     exists e,
       result (histogram run1 run2 cast x bins range weights flow) = Raised e /\
       (0 <= bins + 1 ->
        (forall w, weights = Some w -> shape x = shape w) ->
        e = TypeError "dtype of input must be float32 or float64")) /\
  (forall w, dtype w <> float32 -> dtype w <> float64 ->
     calls (mwv_histogram run2 cast x w bins range flow) = [] /\
     exists e,
       result (mwv_histogram run2 cast x w bins range flow) = Raised e /\
       (0 <= bins + 1 ->
        (exists n sx sw, shape x = n :: sx /\ shape w = n :: sw) ->
        e = TypeError "dtype of input must be float32 or float64")) /\
  (forall weights ev,
     In ev (calls (histogram run1 run2 cast x bins range weights flow)) ->
     kernel_precision ev = dtype x) /\
  (forall w ev,
     In ev (calls (mwv_histogram run2 cast x w bins range flow)) ->
     kernel_precision ev = dtype w) /\
  (forall weights, supported (dtype x) -> 0 <= bins + 1 ->
     (forall w, weights = Some w -> shape x = shape w) ->
     exists ev,
       calls (histogram run1 run2 cast x bins range weights flow) = [ev] /\
       kernel_precision ev = dtype x) /\
  (forall w, supported (dtype w) -> 0 <= bins + 1 ->
     (exists n sx sw, shape x = n :: sx /\ shape w = n :: sw) ->
     exists ev,
       calls (mwv_histogram run2 cast x w bins range flow) = [ev] /\
       kernel_precision ev = dtype w).
Proof.
  destruct range as [lo hi].
  split; [intros; apply histogram_unsupported; assumption |].
  split; [intros; apply mwv_histogram_unsupported; assumption |].
  split; [| split; [| split]].
  - intros [w|] ev.
    + destruct (histogram_weighted_paths x bins lo hi w flow)
        as [(_ & E) | [(_ & _ & E) | [(_ & _ & _ & _ & E)
           | (_ & _ & k & edges' & Hk & _ & _ & E)]]];
        rewrite E; cbn [calls fst raise]; try (intros []; fail).
      intros [<- | []]. exact Hk.
    + destruct (histogram_unweighted_paths x bins lo hi flow)
        as [(_ & E) | [(_ & _ & _ & E) | (_ & k & edges' & Hk & _ & E)]];
        rewrite E; cbn [calls fst raise]; try (intros []; fail).
      intros [<- | []]. exact Hk.
  - intros w ev.
    destruct (mwv_histogram_paths x w bins lo hi flow)
      as [(_ & E) | [(_ & _ & E) | (_ & n & sx & n' & sw & _ & _ &
           [(_ & E) | [(_ & _ & _ & E) | (_ & k & edges' & Hk & _ & _ & E)]])]];
      rewrite E; cbn [calls fst raise]; try (intros []; fail).
    intros [<- | []]. exact Hk.
  - intros [w|] Hsup Hb Hsame.
    + destruct (histogram_weighted_paths x bins lo hi w flow)
        as [(Hneg & _) | [(_ & Hs & _) | [(_ & _ & H32 & H64 & _)
           | (_ & _ & k & edges' & Hk & _ & _ & E)]]].
      * lia.
      * destruct Hs. apply Hsame. reflexivity.
      * destruct (unsupported_not_supported _ H32 H64 Hsup).
      * rewrite E. eexists. split; [reflexivity | exact Hk].
    + destruct (histogram_unweighted_paths x bins lo hi flow)
        as [(Hneg & _) | [(_ & H32 & H64 & _) | (_ & k & edges' & Hk & _ & E)]].
      * lia.
      * destruct (unsupported_not_supported _ H32 H64 Hsup).
      * rewrite E. eexists. split; [reflexivity | exact Hk].
  - intros w Hsup Hb (m & sx' & sw' & Hx' & Hw').
    destruct (mwv_histogram_paths x w bins lo hi flow)
      as [(Hneg & _) | [(_ & Hs & _) | (_ & n & sx & n' & sw & Hx & Hw &
           [(Hn & _) | [(_ & H32 & H64 & _) | (_ & k & edges' & Hk & _ & _ & E)]])]].
    + lia.
    + destruct Hs; congruence.
    + congruence.
    + destruct (unsupported_not_supported _ H32 H64 Hsup).
    + rewrite E. eexists. split; [reflexivity | exact Hk].
Qed.

(** C4: whenever [histogram] or [mwv_histogram] returns, its third
    output is the edge array: [bins + 1] elements, evenly spaced, from
    [lo] to [hi]. *)
Theorem edges_evenly_spaced x bins range flow :
  (forall weights res err edges,
     result (histogram run1 run2 cast x bins range weights flow)
       = Returned (res, err, edges) ->
     evenly_spaced (fst range) (snd range) bins edges) /\
  (forall weights res err edges,
     result (mwv_histogram run2 cast x weights bins range flow)
       = Returned (res, err, edges) ->
     evenly_spaced (fst range) (snd range) bins edges).
Proof.
  destruct range as [lo hi]. cbn [fst snd]. split.
  - intros [w|] res err edges Hres.
    + destruct (histogram_weighted_paths x bins lo hi w flow)
        as [(_ & E) | [(_ & _ & E) | [(_ & _ & _ & _ & E)
           | (_ & _ & k & edges' & _ & _ & Hlin & E)]]];
        rewrite E in Hres; try discriminate.
      cbn [result snd] in Hres.
      destruct (run2 k _ _ _ _ _ _) as [[res' err'] | e]; [| discriminate].
      injection Hres as <- <- <-. apply linspace_evenly_spaced, Hlin.
    + destruct (histogram_unweighted_paths x bins lo hi flow)
        as [(_ & E) | [(_ & _ & _ & E) | (_ & k & edges' & _ & Hlin & E)]];
        rewrite E in Hres; try discriminate.
      cbn [result snd] in Hres.
      destruct (run1 k _ _ _ _ _) as [res' | e]; [| discriminate].
      injection Hres as <- <- <-. apply linspace_evenly_spaced, Hlin.
  - intros w res err edges Hres.
    destruct (mwv_histogram_paths x w bins lo hi flow)
      as [(_ & E) | [(_ & _ & E) | (_ & n & sx & n' & sw & _ & _ &
           [(_ & E) | [(_ & _ & _ & E) | (_ & k & edges' & _ & _ & Hlin & E)]])]];
      rewrite E in Hres; try discriminate.
    cbn [result snd] in Hres.
    destruct (run2 k _ _ _ _ _ _) as [[res' err'] | e]; [| discriminate].
    injection Hres as <- <- <-. apply linspace_evenly_spaced, Hlin.
Qed.

(** C5: a weighted [histogram] call whose [x] and [weights] differ in
    shape, and a [mwv_histogram] call whose [weights] has another number
    of rows than [x], fails with no kernel invoked, and the failure is
    the assertion error whenever the edges could be built; no kernel is
    ever called with arrays of disagreeing shape (for the multi-weight
    kernel: of disagreeing first dimension). *)
Theorem shape_mismatch_fails_before_kernel x w bins range flow :
  (shape x <> shape w ->
   calls (histogram run1 run2 cast x bins range (Some w) flow) = [] /\
   exists e,
     result (histogram run1 run2 cast x bins range (Some w) flow) = Raised e /\
     (0 <= bins + 1 ->
      e = AssertionError "x and weights must have identical shape")) /\
  (forall n sx n' sw,
     shape x = n :: sx -> shape w = n' :: sw -> n <> n' ->
     calls (mwv_histogram run2 cast x w bins range flow) = [] /\
     exists e,
       result (mwv_histogram run2 cast x w bins range flow) = Raised e /\
       (0 <= bins + 1 ->
        e = AssertionError "weights shape is not compatible with x")) /\
  (forall k x' w' b l h f,
     In (Call2 k x' w' b l h f)
        (calls (histogram run1 run2 cast x bins range (Some w) flow)) ->
     shape x' = shape w') /\
  (forall k x' w' b l h f,
     In (Call2 k x' w' b l h f)
        (calls (mwv_histogram run2 cast x w bins range flow)) ->
     exists n sx sw, shape x' = n :: sx /\ shape w' = n :: sw).
Proof.
  destruct range as [lo hi].
  destruct (histogram_weighted_paths x bins lo hi w flow)
    as [(Hb & E) | [(Hb & Hs & E) | [(Hb & Hs & _ & _ & E)
       | (Hb & Hs & k & edges' & _ & _ & _ & E)]]];
    destruct (mwv_histogram_paths x w bins lo hi flow)
      as [(Hb' & E') | [(Hb' & Hs' & E') | (Hb' & n & sx & n' & sw & Hx & Hw &
           [(Hn & E') | [(Hn & _ & _ & E') | (Hn & k' & edges'' & _ & _ & _ & E')]])]];
    rewrite E, E'; cbn [calls result fst snd raise];
    (split; [intros Hne | split; [intros m sx' m' sw' Hx' Hw' Hne | split]]);
    try contradiction;
    try (intros ? ? ? ? ? ? ? []; fail);
    try (split; [reflexivity |]; eexists; (split; [reflexivity |]);
         intros; first [reflexivity | lia]);
    try (destruct Hs'; congruence);
    try congruence.
  all: intros k0 x0 w0 b0 l0 h0 f0 [[= <- <- <- <- <- <- <-] | []].
  all: try (cbn [astype shape]; exact Hs).
  all: subst n'; exists n, sx, sw; cbn [astype shape]; split; assumption.
Qed.

(** C9: with edges that can be built (at least [-1] bins, so every bin
    count of the data model), a weighted [histogram] call whose [x] and
    [weights] differ in shape fails with the assertion error, whatever
    the number of elements of the two arrays. *)
Theorem histogram_compares_full_shapes x w bins range flow :
  shape x <> shape w -> 0 <= bins + 1 ->
  histogram run1 run2 cast x bins range (Some w) flow =
  raise (AssertionError "x and weights must have identical shape").
Proof.
  intros Hs Hb. destruct range as [lo hi].
  destruct (histogram_weighted_paths x bins lo hi w flow)
    as [(Hneg & _) | [(_ & _ & E) | [(_ & Hs' & _) | (_ & Hs' & _)]]].
  - lia.
  - exact E.
  - contradiction.
  - contradiction.
Qed.

(** C10: [mwv_histogram] reads [x] only through its shape and its cast
    to the dtype of [weights]: with [weights] of a supported precision no
    failure before the kernel is a type error and, once the edges are
    built and the row counts agree, it calls the kernel of that precision
    on the cast [x], whatever the dtype of [x], and the kernel's outcome
    is the outcome of the call; [histogram] on an [x] whose dtype is not
    a supported float fails without calling a kernel, with the type
    error whenever the edges could be built and the shape assertion
    passed. *)
Theorem mwv_ignores_sample_dtype x w bins range flow :
  supported (dtype w) ->
  (forall e,
     result (mwv_histogram run2 cast x w bins range flow) = Raised e ->
     calls (mwv_histogram run2 cast x w bins range flow) = [] ->
     forall msg, e <> TypeError msg) /\
  (forall n sx sw,
     0 <= bins + 1 -> shape x = n :: sx -> shape w = n :: sw ->
     exists k edges,
       jit2_precision k = dtype w /\ is_multiweights k = true /\
       mwv_histogram run2 cast x w bins range flow =
       ([Call2 k (astype cast x (dtype w)) w bins (fst range) (snd range) flow],
        outcome_map (fun r => (r, edges))
          (run2 k (astype cast x (dtype w)) w bins
                (fst range) (snd range) flow))) /\
  (forall x',
     shape x' = shape x ->
     astype cast x' (dtype w) = astype cast x (dtype w) ->
     mwv_histogram run2 cast x' w bins range flow =
     mwv_histogram run2 cast x w bins range flow) /\
  (dtype x <> float32 -> dtype x <> float64 ->
   forall weights,
     calls (histogram run1 run2 cast x bins range weights flow) = [] /\
     exists e,
       result (histogram run1 run2 cast x bins range weights flow) = Raised e /\
       (0 <= bins + 1 ->
        (forall w', weights = Some w' -> shape x = shape w') ->
        e = TypeError "dtype of input must be float32 or float64")).
Proof.
  intros Hsup. destruct range as [lo hi]. cbn [fst snd].
  split; [| split; [| split]].
  - intros e Hres Hcalls msg ->.
    destruct (mwv_histogram_paths x w bins lo hi flow)
      as [(_ & E) | [(_ & _ & E) | (_ & n & sx & n' & sw & _ & _ &
           [(_ & E) | [(_ & H32 & H64 & _) | (_ & k & edges' & _ & _ & _ & E)]])]];
      try (rewrite E in Hres; discriminate).
    + destruct (unsupported_not_supported _ H32 H64 Hsup).
    + rewrite E in Hcalls. discriminate.
  - intros m sx' sw' Hb Hx' Hw'.
    destruct (mwv_histogram_paths x w bins lo hi flow)
      as [(Hneg & _) | [(_ & Hs & _) | (_ & n & sx & n' & sw & Hx & Hw &
           [(Hn & _) | [(_ & H32 & H64 & _) | (_ & k & edges' & Hk & Hm & _ & E)]])]].
    + lia.
    + destruct Hs; congruence.
    + congruence.
    + destruct (unsupported_not_supported _ H32 H64 Hsup).
    + exists k, edges'. split; [exact Hk |]. split; [exact Hm | exact E].
  - intros x' Hshape Hcast. unfold mwv_histogram, shape0.
    rewrite Hshape, Hcast. reflexivity.
  - intros H32 H64 weights. apply histogram_unsupported; assumption.
Qed.

End DispatchFacts.
(** * The claims at concrete calls *)

Lemma error_iff_weights_witness :
  (exists res err edges,
     result (examples.histogram examples.x3 1 (0, 2)%Q (Some examples.w3) false)
       = Returned (res, err, edges) /\
     (err = None <-> Some examples.w3 = None)) /\
  (exists res err edges,
     result (examples.histogram examples.x3 1 (0, 2)%Q None false)
       = Returned (res, err, edges) /\
     (err = None <-> @None ndarray = None)) /\
  (exists res err edges,
     result (examples.mwv_histogram examples.x2_int examples.w2x2 1 (0, 2)%Q false)
       = Returned (res, err, edges) /\
     exists k, is_multiweights k = true /\
       jits.run2 jits.isqrt k
         (astype jits.exact_cast examples.x2_int float32)
         examples.w2x2 1 0%Q 2%Q false
       = Returned (res, err)).
Proof.
  split; [| split]; eexists _, _, _.
  - split; [vm_compute; reflexivity |].
    eapply (proj1 (error_iff_weights jits.run1 (jits.run2 jits.isqrt)
                     jits.exact_cast examples.x3 1 (0, 2)%Q false)
                  (Some examples.w3)).
    vm_compute; reflexivity.
  - split; [vm_compute; reflexivity |].
    eapply (proj1 (error_iff_weights jits.run1 (jits.run2 jits.isqrt)
                     jits.exact_cast examples.x3 1 (0, 2)%Q false) None).
    vm_compute; reflexivity.
  - split; [vm_compute; reflexivity |].
    eapply (proj2 (error_iff_weights jits.run1 (jits.run2 jits.isqrt)
                     jits.exact_cast examples.x2_int 1 (0, 2)%Q false)
                  examples.w2x2).
    vm_compute; reflexivity.
Defined.

Lemma casts_to_governing_dtype_witness :
  let ev := Call2 _hfloat64_weighted examples.x3
              {| dtype := float64; shape := [3%nat]; data := [2; 3; 5]%Q |}
              1 0%Q 2%Q false in
  In ev (calls (examples.histogram examples.x3 1 (0, 2)%Q (Some examples.w3) false)) /\
  exists k, is_multiweights k = false /\
    ev = Call2 k examples.x3
           (astype jits.exact_cast examples.w3 (dtype examples.x3))
           1 0%Q 2%Q false /\
    dtype (astype jits.exact_cast examples.w3 (dtype examples.x3)) = float64.
Proof.
  intros ev. split; [vm_compute; left; reflexivity |].
  apply (proj1 (casts_to_governing_dtype jits.run1 (jits.run2 jits.isqrt)
                  jits.exact_cast examples.x3 examples.w3 1 (0, 2)%Q false)).
  vm_compute; left; reflexivity.
Defined.

(** C3, as stated: integer samples with weights one element short fail
    with the assertion error, which comes first, and not with the type
    error. *)
Lemma unsupported_dtype_counterexample :
  dtype examples.x3_int <> float32 /\
  dtype examples.x3_int <> float64 /\
  result (examples.histogram examples.x3_int 10 (0, 10)%Q (Some examples.w2) false)
    = Raised (AssertionError "x and weights must have identical shape") /\
  ~ (exists msg,
       result (examples.histogram examples.x3_int 10 (0, 10)%Q
                 (Some examples.w2) false)
       = Raised (TypeError msg)).
Proof.
  split; [discriminate |]. split; [discriminate |].
  split; [vm_compute; reflexivity |].
  intros [msg H]. vm_compute in H. discriminate.
Qed.

Lemma unsupported_dtype_fails_before_kernel_witness :
  dtype examples.x3_int <> float32 /\
  dtype examples.x3_int <> float64 /\
  calls (examples.histogram examples.x3_int 10 (0, 10)%Q None false) = [] /\
  exists e,
    result (examples.histogram examples.x3_int 10 (0, 10)%Q None false)
      = Raised e /\
    (0 <= 10 + 1 ->
     (forall w, @None ndarray = Some w -> shape examples.x3_int = shape w) ->
     e = TypeError "dtype of input must be float32 or float64").
Proof.
  split; [discriminate |]. split; [discriminate |].
  apply (proj1 (unsupported_dtype_fails_before_kernel jits.run1
                  (jits.run2 jits.isqrt) jits.exact_cast
                  examples.x3_int 10 (0, 10)%Q false) None); discriminate.
Defined.

Lemma edges_evenly_spaced_witness :
  exists res err edges,
    result (examples.histogram examples.x3 1 (0, 2)%Q (Some examples.w3) false)
      = Returned (res, err, edges) /\
    evenly_spaced 0 2 1 edges.
Proof.
  eexists _, _, _. split; [vm_compute; reflexivity |].
  eapply (proj1 (edges_evenly_spaced jits.run1 (jits.run2 jits.isqrt)
                   jits.exact_cast examples.x3 1 (0, 2)%Q false)
                (Some examples.w3)).
  vm_compute; reflexivity.
Defined.

Lemma shape_mismatch_fails_before_kernel_witness :
  shape examples.x3_int <> shape examples.w2 /\
  calls (examples.histogram examples.x3_int 10 (0, 10)%Q (Some examples.w2) false)
    = [] /\
  exists e,
    result (examples.histogram examples.x3_int 10 (0, 10)%Q
              (Some examples.w2) false) = Raised e /\
    (0 <= 10 + 1 ->
     e = AssertionError "x and weights must have identical shape").
Proof.
  split; [discriminate |].
  apply (proj1 (shape_mismatch_fails_before_kernel jits.run1
                  (jits.run2 jits.isqrt) jits.exact_cast
                  examples.x3_int examples.w2 10 (0, 10)%Q false)).
  discriminate.
Defined.

Lemma histogram_compares_full_shapes_witness :
  shape examples.x3 <> shape examples.w3_column /\
  length (data examples.x3) = length (data examples.w3_column) /\
  examples.histogram examples.x3 10 (0, 10)%Q (Some examples.w3_column) false
  = raise (AssertionError "x and weights must have identical shape").
Proof.
  split; [discriminate |]. split; [reflexivity |].
  apply (histogram_compares_full_shapes jits.run1 (jits.run2 jits.isqrt)
           jits.exact_cast examples.x3 examples.w3_column 10 (0, 10)%Q false).
  - discriminate.
  - lia.
Defined.

Lemma mwv_ignores_sample_dtype_witness :
  supported (dtype examples.w2x2) /\
  dtype examples.x2_int = int64 /\
  exists k edges,
    jit2_precision k = float32 /\ is_multiweights k = true /\
    examples.mwv_histogram examples.x2_int examples.w2x2 1 (0, 2)%Q false =
    ([Call2 k (astype jits.exact_cast examples.x2_int float32) examples.w2x2
            1 0%Q 2%Q false],
     outcome_map (fun r => (r, edges))
       (jits.run2 jits.isqrt k
          (astype jits.exact_cast examples.x2_int float32)
          examples.w2x2 1 0%Q 2%Q false)).
Proof.
  split; [left; reflexivity |]. split; [reflexivity |].
  destruct (mwv_ignores_sample_dtype jits.run1 (jits.run2 jits.isqrt)
              jits.exact_cast examples.x2_int examples.w2x2 1 (0, 2)%Q false)
    as (_ & Hruns & _); [left; reflexivity |].
  apply (Hruns 2%nat [] [2%nat]); [lia | reflexivity | reflexivity].
Defined.

(** * Further properties of the dispatch layer *)

(** A routine is known by its precision and its family. *)
Lemma jit1_by_precision k k' : jit1_precision k = jit1_precision k' -> k = k'.
Proof. destruct k, k'; intros H; first [reflexivity | discriminate H]. Qed.

Lemma jit2_by_precision k k' :
  jit2_precision k = jit2_precision k' ->
  is_multiweights k = is_multiweights k' -> k = k'.
Proof.
  destruct k, k'; intros H H'; first [reflexivity | discriminate H | discriminate H'].
Qed.

Section DispatchOutcomes.

Variable run1 : jit1 -> ndarray -> Z -> Q -> Q -> bool -> outcome ndarray.
Variable run2 :
  jit2 -> ndarray -> ndarray -> Z -> Q -> Q -> bool ->
  outcome (ndarray * ndarray).
Variable cast : np_dtype -> np_dtype -> Q -> Q.

(** X1: without weights, [histogram] invokes a kernel exactly when the
    edges can be built and the dtype of [x] is float32 or float64,
    whatever the shape of [x]; it then makes the one call of the kernel
    of that precision on [x] as it is, and the outcome of that call is
    the outcome of [histogram]: the kernel's exception, or the kernel's
    counts with [None] and the edges. *)
Theorem histogram_unweighted_reaches_kernel_iff x bins range flow :
  (calls (histogram run1 run2 cast x bins range None flow) <> []
   <-> (0 <= bins + 1 /\ supported (dtype x))) /\
  (0 <= bins + 1 -> supported (dtype x) ->
   exists k edges,
     jit1_precision k = dtype x /\
     linspace (fst range) (snd range) (bins + 1) = ret edges /\
     histogram run1 run2 cast x bins range None flow =
     ([Call1 k x bins (fst range) (snd range) flow],
      outcome_map (fun res => (res, None, edges))
        (run1 k x bins (fst range) (snd range) flow))).
Proof.
  destruct range as [lo hi]. cbn [fst snd].
  destruct (histogram_unweighted_paths run1 run2 cast x bins lo hi flow)
    as [(Hneg & E) | [(Hb & H32 & H64 & E) | (Hb & k & edges & Hk & Hlin & E)]];
    rewrite E.
  - split; [split |].
    + intros H. destruct H. reflexivity.
    + intros [? _]. lia.
    + intros ?. lia.
  - split; [split |].
    + intros H. destruct H. reflexivity.
    + intros [_ Hsup]. destruct (unsupported_not_supported _ H32 H64 Hsup).
    + intros _ Hsup. destruct (unsupported_not_supported _ H32 H64 Hsup).
  - split; [split |].
    + intros _. split; [exact Hb |]. rewrite <- Hk. apply jit1_supported.
    + intros _. discriminate.
    + intros _ _. exists k, edges. repeat split; assumption.
Qed.

(** X2: with weights, [histogram] invokes a kernel exactly when the edges
    can be built, the two shapes are equal and the dtype of [x] is
    float32 or float64; the dtype of [weights] plays no part.  It then
    makes the one call of the single-weight kernel of that precision, and
    the outcome of that call is the outcome of [histogram]: the kernel's
    exception, or the kernel's counts and errors with the edges. *)
Theorem histogram_weighted_reaches_kernel_iff x w bins range flow :
  (calls (histogram run1 run2 cast x bins range (Some w) flow) <> []
   <-> (0 <= bins + 1 /\ shape x = shape w /\ supported (dtype x))) /\
  (0 <= bins + 1 -> shape x = shape w -> supported (dtype x) ->
   exists k edges,
     jit2_precision k = dtype x /\ is_multiweights k = false /\
     linspace (fst range) (snd range) (bins + 1) = ret edges /\
     histogram run1 run2 cast x bins range (Some w) flow =
     ([Call2 k x (astype cast w (dtype x)) bins (fst range) (snd range) flow],
      outcome_map (fun r => (fst r, Some (snd r), edges))
        (run2 k x (astype cast w (dtype x)) bins (fst range) (snd range) flow))).
Proof.
  destruct range as [lo hi]. cbn [fst snd].
  destruct (histogram_weighted_paths run1 run2 cast x bins lo hi w flow)
    as [(Hneg & E) | [(Hb & Hs & E) | [(Hb & Hs & H32 & H64 & E)
       | (Hb & Hs & k & edges & Hk & Hm & Hlin & E)]]];
    rewrite E.
  - split; [split |].
    + intros H. destruct H. reflexivity.
    + intros [? _]. lia.
    + intros ?. lia.
  - split; [split |].
    + intros H. destruct H. reflexivity.
    + intros (_ & Hs' & _). contradiction.
    + intros _ Hs'. contradiction.
  - split; [split |].
    + intros H. destruct H. reflexivity.
    + intros (_ & _ & Hsup). destruct (unsupported_not_supported _ H32 H64 Hsup).
    + intros _ _ Hsup. destruct (unsupported_not_supported _ H32 H64 Hsup).
  - split; [split |].
    + intros _. split; [exact Hb |]. split; [exact Hs |].
      rewrite <- Hk. apply jit2_supported.
    + intros _. discriminate.
    + intros _ _ _. exists k, edges. repeat split; assumption.
Qed.

(** X3: [mwv_histogram] invokes a kernel exactly when the edges can be
    built, [x] and [weights] both have a first dimension and these are
    equal, and the dtype of [weights] is float32 or float64; the
    remaining dimensions and the dtype of [x] play no part.  It then
    makes the one call of the multi-weight kernel of that precision, and
    the outcome of that call is the outcome of [mwv_histogram]: the
    kernel's exception, or the kernel's counts and errors with the
    edges. *)
Theorem mwv_histogram_reaches_kernel_iff x w bins range flow :
  (calls (mwv_histogram run2 cast x w bins range flow) <> []
   <-> (0 <= bins + 1 /\
        (exists n sx sw, shape x = n :: sx /\ shape w = n :: sw) /\
        supported (dtype w))) /\
  (0 <= bins + 1 ->
   (exists n sx sw, shape x = n :: sx /\ shape w = n :: sw) ->
   supported (dtype w) ->
   exists k edges,
     jit2_precision k = dtype w /\ is_multiweights k = true /\
     linspace (fst range) (snd range) (bins + 1) = ret edges /\
     mwv_histogram run2 cast x w bins range flow =
     ([Call2 k (astype cast x (dtype w)) w bins (fst range) (snd range) flow],
      outcome_map (fun r => (r, edges))
        (run2 k (astype cast x (dtype w)) w bins (fst range) (snd range) flow))).
Proof.
  destruct range as [lo hi]. cbn [fst snd].
  destruct (mwv_histogram_paths run2 cast x w bins lo hi flow)
    as [(Hneg & E) | [(Hb & Hs & E) | (Hb & n & sx & n' & sw & Hx & Hw &
         [(Hn & E) | [(Hn & H32 & H64 & E)
         | (Hn & k & edges & Hk & Hm & Hlin & E)]])]];
    rewrite E.
  - split; [split |].
    + intros H. destruct H. reflexivity.
    + intros [? _]. lia.
    + intros ?. lia.
  - split; [split |].
    + intros H. destruct H. reflexivity.
    + intros (_ & (m & sx' & sw' & Hx' & Hw') & _). destruct Hs; congruence.
    + intros _ (m & sx' & sw' & Hx' & Hw'). destruct Hs; congruence.
  - split; [split |].
    + intros H. destruct H. reflexivity.
    + intros (_ & (m & sx' & sw' & Hx' & Hw') & _). congruence.
    + intros _ (m & sx' & sw' & Hx' & Hw'). congruence.
  - split; [split |].
    + intros H. destruct H. reflexivity.
    + intros (_ & _ & Hsup). destruct (unsupported_not_supported _ H32 H64 Hsup).
    + intros _ _ Hsup. destruct (unsupported_not_supported _ H32 H64 Hsup).
  - split; [split |].
    + intros _. split; [exact Hb |]. split.
      * subst n'. exists n, sx, sw. split; assumption.
      * rewrite <- Hk. apply jit2_supported.
    + intros _. discriminate.
    + intros _ _ _. exists k, edges. repeat split; assumption.
Qed.

End DispatchOutcomes.

Section DispatchErrors.

Variable run1 : jit1 -> ndarray -> Z -> Q -> Q -> bool -> outcome ndarray.
Variable run2 :
  jit2 -> ndarray -> ndarray -> Z -> Q -> Q -> bool ->
  outcome (ndarray * ndarray).
Variable cast : np_dtype -> np_dtype -> Q -> Q.

(** X5: with fewer than [-1] bins the edges cannot be built, and both
    functions raise the [ValueError] of [numpy.linspace] before looking
    at any array: whatever the shapes and dtypes of [x] and [weights]. *)
Theorem negative_bins_value_error x bins range flow :
  bins + 1 < 0 ->
  exists msg,
    (forall weights,
       histogram run1 run2 cast x bins range weights flow
       = raise (ValueError msg)) /\
    (forall w,
       mwv_histogram run2 cast x w bins range flow = raise (ValueError msg)).
Proof.
  intros Hneg. destruct range as [lo hi]. eexists. split.
  - intros weights. unfold histogram. cbn [fst snd].
    rewrite (linspace_negative lo hi _ Hneg). apply bind_raise.
  - intros w. unfold mwv_histogram. cbn [fst snd].
    rewrite (linspace_negative lo hi _ Hneg). apply bind_raise.
Qed.

(** X6: [mwv_histogram] indexes both shape tuples: once the edges are
    built, a 0-dimensional [x] or [weights] makes it raise [IndexError],
    before the row-count assertion and the dtype test, with no kernel
    invoked. *)
Theorem mwv_histogram_scalar_array x w bins range flow :
  0 <= bins + 1 -> shape x = [] \/ shape w = [] ->
  mwv_histogram run2 cast x w bins range flow
  = raise (IndexError "tuple index out of range").
Proof.
  intros Hb Hs. destruct range as [lo hi].
  destruct (mwv_histogram_paths run2 cast x w bins lo hi flow)
    as [(Hneg & _) | [(_ & _ & E) | (_ & n & sx & n' & sw & Hx & Hw & _)]].
  - lia.
  - exact E.
  - destruct Hs; congruence.
Qed.

(** X7: every exception that comes out of [histogram] has its cause.
    Raised before any kernel is invoked, it is a [ValueError] for fewer
    than [-1] bins, the [AssertionError] for supplied weights whose shape
    differs from that of [x], or the [TypeError] for a dtype of [x] that
    is neither float32 nor float64; there is no [AssertionError] without
    weights.  Any other exception is the one the single kernel call
    raised, after all three checks passed. *)
Theorem histogram_exception_causes x bins range weights flow e :
  result (histogram run1 run2 cast x bins range weights flow) = Raised e ->
  (calls (histogram run1 run2 cast x bins range weights flow) = [] /\
   (((exists msg, e = ValueError msg) /\ bins + 1 < 0) \/
    (e = AssertionError "x and weights must have identical shape" /\
     0 <= bins + 1 /\ exists w, weights = Some w /\ shape x <> shape w) \/
    (e = TypeError "dtype of input must be float32 or float64" /\
     0 <= bins + 1 /\ ~ supported (dtype x) /\
     forall w, weights = Some w -> shape x = shape w))) \/
  (0 <= bins + 1 /\ supported (dtype x) /\
   (forall w, weights = Some w -> shape x = shape w) /\
   ((weights = None /\
     exists k,
       calls (histogram run1 run2 cast x bins range weights flow)
       = [Call1 k x bins (fst range) (snd range) flow] /\
       run1 k x bins (fst range) (snd range) flow = Raised e) \/
    (exists w k,
       weights = Some w /\
       calls (histogram run1 run2 cast x bins range weights flow)
       = [Call2 k x (astype cast w (dtype x)) bins (fst range) (snd range) flow] /\
       run2 k x (astype cast w (dtype x)) bins (fst range) (snd range) flow
       = Raised e))).
Proof.
  destruct range as [lo hi]. cbn [fst snd]. intros Hres.
  destruct weights as [w|].
  - destruct (histogram_weighted_paths run1 run2 cast x bins lo hi w flow)
      as [(Hneg & E) | [(Hb & Hs & E) | [(Hb & Hs & H32 & H64 & E)
         | (Hb & Hs & k & edges & Hk & _ & _ & E)]]];
      rewrite E in Hres |- *.
    + injection Hres as <-. left. split; [reflexivity |].
      left. split; [eexists; reflexivity | exact Hneg].
    + injection Hres as <-. left. split; [reflexivity |].
      right; left. split; [reflexivity |]. split; [exact Hb |].
      exists w. split; [reflexivity | exact Hs].
    + injection Hres as <-. left. split; [reflexivity |].
      right; right. split; [reflexivity |]. split; [exact Hb |].
      split; [apply unsupported_not_supported; assumption |].
      intros w' [= <-]. exact Hs.
    + right. split; [exact Hb |].
      split; [rewrite <- Hk; apply jit2_supported |].
      split; [intros w' [= <-]; exact Hs |].
      right. exists w, k. split; [reflexivity |]. split; [reflexivity |].
      cbn [result snd] in Hres.
      destruct (run2 k _ _ _ _ _ _) as [r | e']; [discriminate |].
      injection Hres as <-. reflexivity.
  - destruct (histogram_unweighted_paths run1 run2 cast x bins lo hi flow)
      as [(Hneg & E) | [(Hb & H32 & H64 & E) | (Hb & k & edges & Hk & _ & E)]];
      rewrite E in Hres |- *.
    + injection Hres as <-. left. split; [reflexivity |].
      left. split; [eexists; reflexivity | exact Hneg].
    + injection Hres as <-. left. split; [reflexivity |].
      right; right. split; [reflexivity |]. split; [exact Hb |].
      split; [apply unsupported_not_supported; assumption |].
      intros w' [=].
    + right. split; [exact Hb |].
      split; [rewrite <- Hk; apply jit1_supported |].
      split; [intros w' [=] |].
      left. split; [reflexivity |]. exists k. split; [reflexivity |].
      cbn [result snd] in Hres.
      destruct (run1 k _ _ _ _ _) as [r | e']; [discriminate |].
      injection Hres as <-. reflexivity.
Qed.

(** X8: every exception that comes out of [mwv_histogram] has its cause.
    Raised before any kernel is invoked, it is a [ValueError] for fewer
    than [-1] bins, the [IndexError] for a 0-dimensional [x] or
    [weights], the [AssertionError] for first dimensions that differ, or
    the [TypeError] for a dtype of [weights] that is neither float32 nor
    float64.  Any other exception is the one the single kernel call
    raised, after all four checks passed. *)
Theorem mwv_histogram_exception_causes x w bins range flow e :
  result (mwv_histogram run2 cast x w bins range flow) = Raised e ->
  (calls (mwv_histogram run2 cast x w bins range flow) = [] /\
   (((exists msg, e = ValueError msg) /\ bins + 1 < 0) \/
    (e = IndexError "tuple index out of range" /\
     0 <= bins + 1 /\ (shape x = [] \/ shape w = [])) \/
    (e = AssertionError "weights shape is not compatible with x" /\
     0 <= bins + 1 /\
     exists n sx n' sw, shape x = n :: sx /\ shape w = n' :: sw /\ n <> n') \/
    (e = TypeError "dtype of input must be float32 or float64" /\
     0 <= bins + 1 /\ ~ supported (dtype w) /\
     exists n sx sw, shape x = n :: sx /\ shape w = n :: sw))) \/
  (0 <= bins + 1 /\ supported (dtype w) /\
   (exists n sx sw, shape x = n :: sx /\ shape w = n :: sw) /\
   exists k,
     calls (mwv_histogram run2 cast x w bins range flow)
     = [Call2 k (astype cast x (dtype w)) w bins (fst range) (snd range) flow] /\
     run2 k (astype cast x (dtype w)) w bins (fst range) (snd range) flow
     = Raised e).
Proof.
  destruct range as [lo hi]. cbn [fst snd]. intros Hres.
  destruct (mwv_histogram_paths run2 cast x w bins lo hi flow)
    as [(Hneg & E) | [(Hb & Hs & E) | (Hb & n & sx & n' & sw & Hx & Hw &
         [(Hn & E) | [(Hn & H32 & H64 & E)
         | (Hn & k & edges & Hk & _ & _ & E)]])]];
    rewrite E in Hres |- *.
  - injection Hres as <-. left. split; [reflexivity |].
    left. split; [eexists; reflexivity | exact Hneg].
  - injection Hres as <-. left. split; [reflexivity |].
    right; left. split; [reflexivity |]. split; assumption.
  - injection Hres as <-. left. split; [reflexivity |].
    right; right; left. split; [reflexivity |]. split; [exact Hb |].
    exists n, sx, n', sw. repeat split; assumption.
  - injection Hres as <-. left. split; [reflexivity |].
    right; right; right. split; [reflexivity |]. split; [exact Hb |].
    split; [apply unsupported_not_supported; assumption |].
    subst n'. exists n, sx, sw. split; assumption.
  - right. split; [exact Hb |].
    split; [rewrite <- Hk; apply jit2_supported |].
    split; [subst n'; exists n, sx, sw; split; assumption |].
    exists k. split; [reflexivity |].
    cbn [result snd] in Hres.
    destruct (run2 k _ _ _ _ _ _) as [r | e']; [discriminate |].
    injection Hres as <-. reflexivity.
Qed.

(** X9: the dispatch layer only hands [flow] on.  A call that fails
    before any kernel is invoked fails in the same way under the other
    setting of the flag; and a call that invokes a kernel invokes, under
    the other setting, the same kernel on the same arrays with the same
    bin count and range, the flag being the one argument that differs. *)
Theorem flow_is_only_forwarded x bins range flow flow' :
  (forall weights,
     (calls (histogram run1 run2 cast x bins range weights flow) = [] ->
      histogram run1 run2 cast x bins range weights flow'
      = histogram run1 run2 cast x bins range weights flow) /\
     (forall k x' b l h f,
        In (Call1 k x' b l h f)
           (calls (histogram run1 run2 cast x bins range weights flow)) ->
        f = flow /\
        calls (histogram run1 run2 cast x bins range weights flow')
        = [Call1 k x' b l h flow']) /\
     (forall k x' w' b l h f,
        In (Call2 k x' w' b l h f)
           (calls (histogram run1 run2 cast x bins range weights flow)) ->
        f = flow /\
        calls (histogram run1 run2 cast x bins range weights flow')
        = [Call2 k x' w' b l h flow'])) /\
  (forall w,
     (calls (mwv_histogram run2 cast x w bins range flow) = [] ->
      mwv_histogram run2 cast x w bins range flow'
      = mwv_histogram run2 cast x w bins range flow) /\
     (forall k x' w' b l h f,
        In (Call2 k x' w' b l h f)
           (calls (mwv_histogram run2 cast x w bins range flow)) ->
        f = flow /\
        calls (mwv_histogram run2 cast x w bins range flow')
        = [Call2 k x' w' b l h flow'])).
Proof.
  destruct range as [lo hi]. split.
  - intros [w|].
    + destruct (histogram_weighted_paths run1 run2 cast x bins lo hi w flow)
        as [(Hneg & E) | [(Hb & Hs & E) | [(Hb & Hs & H32 & H64 & E)
           | (Hb & Hs & k & edges & Hk & Hm & Hlin & E)]]];
        destruct (histogram_weighted_paths run1 run2 cast x bins lo hi w flow')
          as [(Hneg' & E') | [(Hb' & Hs' & E') | [(Hb' & Hs' & H32' & H64' & E')
             | (Hb' & Hs' & k' & edges' & Hk' & Hm' & Hlin' & E')]]];
        try lia; try contradiction;
        try (destruct (unsupported_not_supported (dtype x));
             [assumption | assumption |];
             first [rewrite <- Hk | rewrite <- Hk']; apply jit2_supported);
        rewrite E, E'; cbn [calls fst raise];
        (split; [| split]);
        try reflexivity; try (intros ? ? ? ? ? ? []; fail);
        try (intros ? ? ? ? ? ? ? []; fail); try discriminate.
      * intros k0 x0 b0 l0 h0 f0 [[=] | []].
      * intros k0 x0 w0 b0 l0 h0 f0 [[= <- <- <- <- <- <- <-] | []].
        split; [reflexivity |].
        rewrite (jit2_by_precision k' k); [reflexivity | congruence | congruence].
    + destruct (histogram_unweighted_paths run1 run2 cast x bins lo hi flow)
        as [(Hneg & E) | [(Hb & H32 & H64 & E)
           | (Hb & k & edges & Hk & Hlin & E)]];
        destruct (histogram_unweighted_paths run1 run2 cast x bins lo hi flow')
          as [(Hneg' & E') | [(Hb' & H32' & H64' & E')
             | (Hb' & k' & edges' & Hk' & Hlin' & E')]];
        try lia;
        try (destruct (unsupported_not_supported (dtype x));
             [assumption | assumption |];
             first [rewrite <- Hk | rewrite <- Hk']; apply jit1_supported);
        rewrite E, E'; cbn [calls fst raise];
        (split; [| split]);
        try reflexivity; try (intros ? ? ? ? ? ? []; fail);
        try (intros ? ? ? ? ? ? ? []; fail); try discriminate.
      * intros k0 x0 b0 l0 h0 f0 [[= <- <- <- <- <- <-] | []].
        split; [reflexivity |].
        rewrite (jit1_by_precision k' k); [reflexivity | congruence].
      * intros k0 x0 w0 b0 l0 h0 f0 [[=] | []].
  - intros w.
    destruct (mwv_histogram_paths run2 cast x w bins lo hi flow)
      as [(Hneg & E) | [(Hb & Hs & E) | (Hb & n & sx & n' & sw & Hx & Hw &
           [(Hn & E) | [(Hn & H32 & H64 & E)
           | (Hn & k & edges & Hk & Hm & Hlin & E)]])]];
      destruct (mwv_histogram_paths run2 cast x w bins lo hi flow')
        as [(Hneg' & E') | [(Hb' & Hs' & E') | (Hb' & m & sx' & m' & sw' & Hx' & Hw' &
             [(Hn' & E') | [(Hn' & H32' & H64' & E')
             | (Hn' & k' & edges' & Hk' & Hm' & Hlin' & E')]])]];
      try lia;
      try (destruct Hs; congruence); try (destruct Hs'; congruence);
      try congruence;
      try (destruct (unsupported_not_supported (dtype w));
           [assumption | assumption |];
           first [rewrite <- Hk | rewrite <- Hk']; apply jit2_supported);
      rewrite E, E'; cbn [calls fst raise];
      split;
      try reflexivity; try (intros ? ? ? ? ? ? ? []; fail); try discriminate.
    intros k0 x0 w0 b0 l0 h0 f0 [[= <- <- <- <- <- <- <-] | []].
    split; [reflexivity |].
    rewrite (jit2_by_precision k' k); [reflexivity | congruence | congruence].
Qed.

End DispatchErrors.

(** * Further properties of the returned edges *)

Lemma evenly_spaced_step lo hi bins edges (i : nat) :
  evenly_spaced lo hi bins edges -> 1 <= bins -> Z.of_nat i < bins ->
  (nth (S i) (data edges) 0 == nth i (data edges) 0 + (hi - lo) / inject_Z bins)%Q.
Proof.
  intros (_ & _ & Hnth & _) Hb Hi.
  rewrite (Hnth (S i)) by lia. rewrite (Hnth i) by lia.
  rewrite Nat2Z.inj_succ. unfold Z.succ. rewrite inject_Z_plus.
  change (inject_Z 1) with 1%Q. field.
  apply inject_Z_nonzero. lia.
Qed.

Lemma step_positive lo hi bins :
  1 <= bins -> (lo < hi)%Q -> (0 < (hi - lo) / inject_Z bins)%Q.
Proof.
  intros Hb Hlt. apply Qlt_shift_div_l.
  - change 0%Q with (inject_Z 0). rewrite <- Zlt_Qlt. lia.
  - rewrite Qmult_0_l. apply Qlt_minus_iff in Hlt. exact Hlt.
Qed.

Section DispatchEdges.

Variable run1 : jit1 -> ndarray -> Z -> Q -> Q -> bool -> outcome ndarray.
Variable run2 :
  jit2 -> ndarray -> ndarray -> Z -> Q -> Q -> bool ->
  outcome (ndarray * ndarray).
Variable cast : np_dtype -> np_dtype -> Q -> Q.

(** The third output of a returning call is what [numpy.linspace] gave. *)
Lemma histogram_returned_edges x bins range weights flow r :
  result (histogram run1 run2 cast x bins range weights flow) = Returned r ->
  linspace (fst range) (snd range) (bins + 1) = ret (snd r).
Proof.
  destruct range as [lo hi]. cbn [fst snd]. intros Hres.
  destruct weights as [w|].
  - destruct (histogram_weighted_paths run1 run2 cast x bins lo hi w flow)
      as [(_ & E) | [(_ & _ & E) | [(_ & _ & _ & _ & E)
         | (_ & _ & k & edges & _ & _ & Hlin & E)]]];
      rewrite E in Hres; try discriminate.
    cbn [result snd] in Hres.
    destruct (run2 k _ _ _ _ _ _) as [r' | e]; [| discriminate].
    injection Hres as <-. exact Hlin.
  - destruct (histogram_unweighted_paths run1 run2 cast x bins lo hi flow)
      as [(_ & E) | [(_ & _ & _ & E) | (_ & k & edges & _ & Hlin & E)]];
      rewrite E in Hres; try discriminate.
    cbn [result snd] in Hres.
    destruct (run1 k _ _ _ _ _) as [r' | e]; [| discriminate].
    injection Hres as <-. exact Hlin.
Qed.

Lemma mwv_histogram_returned_edges x w bins range flow r :
  result (mwv_histogram run2 cast x w bins range flow) = Returned r ->
  linspace (fst range) (snd range) (bins + 1) = ret (snd r).
Proof.
  destruct range as [lo hi]. cbn [fst snd]. intros Hres.
  destruct (mwv_histogram_paths run2 cast x w bins lo hi flow)
    as [(_ & E) | [(_ & _ & E) | (_ & n & sx & n' & sw & _ & _ &
         [(_ & E) | [(_ & _ & _ & E) | (_ & k & edges & _ & _ & Hlin & E)]])]];
    rewrite E in Hres; try discriminate.
  cbn [result snd] in Hres.
  destruct (run2 k _ _ _ _ _ _) as [r' | e]; [| discriminate].
  injection Hres as <-. exact Hlin.
Qed.


(** X11: with at least one bin and [lo < hi], the edges a returning call
    of [histogram] or [mwv_histogram] hands back are strictly increasing,
    each one [(hi - lo) / bins] above the one before. *)
Theorem edges_strictly_increasing x bins range flow :
  1 <= bins -> (fst range < snd range)%Q ->
  (forall weights r (i : nat),
     result (histogram run1 run2 cast x bins range weights flow) = Returned r ->
     Z.of_nat i < bins ->
     (nth (S i) (data (snd r)) 0
      == nth i (data (snd r)) 0 + (snd range - fst range) / inject_Z bins)%Q /\
     (nth i (data (snd r)) 0 < nth (S i) (data (snd r)) 0)%Q) /\
  (forall w r (i : nat),
     result (mwv_histogram run2 cast x w bins range flow) = Returned r ->
     Z.of_nat i < bins ->
     (nth (S i) (data (snd r)) 0
      == nth i (data (snd r)) 0 + (snd range - fst range) / inject_Z bins)%Q /\
     (nth i (data (snd r)) 0 < nth (S i) (data (snd r)) 0)%Q).
Proof.
  intros Hb Hlt.
  pose proof (step_positive _ _ _ Hb Hlt) as Hstep.
  assert (Hgen : forall edges (i : nat),
            linspace (fst range) (snd range) (bins + 1) = ret edges ->
            Z.of_nat i < bins ->
            (nth (S i) (data edges) 0
             == nth i (data edges) 0 + (snd range - fst range) / inject_Z bins)%Q /\
            (nth i (data edges) 0 < nth (S i) (data edges) 0)%Q).
  { intros edges i Hlin Hi.
    pose proof (evenly_spaced_step _ _ _ _ i
                  (linspace_evenly_spaced _ _ _ _ Hlin) Hb Hi) as Hs.
    split; [exact Hs |]. rewrite Hs.
    rewrite <- (Qplus_0_r (nth i (data edges) 0%Q)) at 1.
    apply Qplus_lt_r. exact Hstep. }
  split.
  - intros weights r i Hres Hi.
    apply Hgen; [eapply histogram_returned_edges; exact Hres | exact Hi].
  - intros w r i Hres Hi.
    apply Hgen; [eapply mwv_histogram_returned_edges; exact Hres | exact Hi].
Qed.

(** Casting to the dtype an array already has changes nothing, when
    the element conversion between equal dtypes is the identity. *)
Lemma astype_same (a : ndarray) :
  (forall d q, cast d d q = q) -> astype cast a (dtype a) = a.
Proof.
  intros Hid. destruct a as [d sh l]. unfold astype. cbn [dtype shape data].
  f_equal. rewrite <- (list_fmap_id l) at 2.
  apply list_fmap_ext. intros _ q _. apply Hid.
Qed.

(** X12: arrays that already share their dtype reach the kernel as they
    are: when converting an element to its own dtype changes nothing,
    every kernel call of the weighted [histogram] with
    [weights.dtype == x.dtype] passes [x] and [weights] themselves, and
    so does every kernel call of [mwv_histogram]. *)
Theorem same_dtype_arrays_pass_unchanged x w bins range flow :
  (forall d q, cast d d q = q) -> dtype w = dtype x ->
  (forall k x' w' b l h f,
     In (Call2 k x' w' b l h f)
        (calls (histogram run1 run2 cast x bins range (Some w) flow)) ->
     x' = x /\ w' = w) /\
  (forall k x' w' b l h f,
     In (Call2 k x' w' b l h f)
        (calls (mwv_histogram run2 cast x w bins range flow)) ->
     x' = x /\ w' = w).
Proof.
  intros Hid Hd. destruct range as [lo hi]. split.
  - intros k x' w' b l h f.
    destruct (histogram_weighted_paths run1 run2 cast x bins lo hi w flow)
      as [(_ & E) | [(_ & _ & E) | [(_ & _ & _ & _ & E)
         | (_ & _ & k0 & edges & _ & _ & _ & E)]]];
      rewrite E; cbn [calls fst raise]; try (intros []; fail).
    intros [[= <- <- <- <- <- <- <-] | []].
    split; [reflexivity |]. rewrite <- Hd. apply astype_same, Hid.
  - intros k x' w' b l h f.
    destruct (mwv_histogram_paths run2 cast x w bins lo hi flow)
      as [(_ & E) | [(_ & _ & E) | (_ & n & sx & n' & sw & _ & _ &
           [(_ & E) | [(_ & _ & _ & E) | (_ & k0 & edges & _ & _ & _ & E)]])]];
      rewrite E; cbn [calls fst raise]; try (intros []; fail).
    intros [[= <- <- <- <- <- <- <-] | []].
    split; [| reflexivity]. rewrite Hd. apply astype_same, Hid.
Qed.

End DispatchEdges.

(** * The further properties at concrete calls *)

Lemma negative_bins_value_error_witness :
  -5 + 1 < 0 /\
  exists msg,
    (forall weights,
       examples.histogram examples.x3_int (-5) (0, 10)%Q weights false
       = raise (ValueError msg)) /\
    (forall w,
       examples.mwv_histogram examples.x3_int w (-5) (0, 10)%Q false
       = raise (ValueError msg)).
Proof.
  split; [lia |].
  apply (negative_bins_value_error jits.run1 (jits.run2 jits.isqrt)
           jits.exact_cast examples.x3_int (-5) (0, 10)%Q false).
  lia.
Defined.

Lemma mwv_histogram_scalar_array_witness :
  shape more_examples.x0d = [] /\
  examples.mwv_histogram more_examples.x0d examples.w2x2 1 (0, 2)%Q false
  = raise (IndexError "tuple index out of range").
Proof.
  split; [reflexivity |].
  apply (mwv_histogram_scalar_array (jits.run2 jits.isqrt) jits.exact_cast
           more_examples.x0d examples.w2x2 1 (0, 2)%Q false).
  - lia.
  - left; reflexivity.
Defined.


Lemma edges_strictly_increasing_witness :
  exists r,
    result (examples.histogram examples.x3 4 (0, 2)%Q None false) = Returned r /\
    (nth 2 (data (snd r)) 0 < nth 3 (data (snd r)) 0)%Q.
Proof.
  eexists. split; [vm_compute; reflexivity |].
  apply (proj1 (edges_strictly_increasing jits.run1 (jits.run2 jits.isqrt)
                  jits.exact_cast examples.x3 4 (0, 2)%Q false
                  ltac:(lia) ltac:(reflexivity)) None _ 2%nat).
  - vm_compute; reflexivity.
  - lia.
Defined.

Lemma same_dtype_arrays_pass_unchanged_witness :
  (forall d q, jits.exact_cast d d q = q) /\
  dtype more_examples.w3_f64 = dtype examples.x3 /\
  In (Call2 _hfloat64_weighted examples.x3 more_examples.w3_f64 1 0%Q 2%Q false)
     (calls (examples.histogram examples.x3 1 (0, 2)%Q
               (Some more_examples.w3_f64) false)) /\
  forall k x' w' b l h f,
    In (Call2 k x' w' b l h f)
       (calls (examples.histogram examples.x3 1 (0, 2)%Q
                 (Some more_examples.w3_f64) false)) ->
    x' = examples.x3 /\ w' = more_examples.w3_f64.
Proof.
  split; [reflexivity |]. split; [reflexivity |].
  split; [vm_compute; left; reflexivity |].
  apply (proj1 (same_dtype_arrays_pass_unchanged jits.run1
                  (jits.run2 jits.isqrt) jits.exact_cast
                  examples.x3 more_examples.w3_f64 1 (0, 2)%Q false
                  ltac:(reflexivity) ltac:(reflexivity))).
Defined.

Lemma histogram_unweighted_reaches_kernel_iff_witness :
  0 <= 10 + 1 /\ supported (dtype examples.x3) /\
  exists k edges,
    jit1_precision k = dtype examples.x3 /\
    linspace 0 10 (10 + 1) = ret edges /\
    examples.histogram examples.x3 10 (0, 10)%Q None false =
    ([Call1 k examples.x3 10 0%Q 10%Q false],
     outcome_map (fun res => (res, None, edges))
       (jits.run1 k examples.x3 10 0%Q 10%Q false)).
Proof.
  split; [lia |]. split; [right; reflexivity |].
  apply (proj2 (histogram_unweighted_reaches_kernel_iff jits.run1
                  (jits.run2 jits.isqrt) jits.exact_cast
                  examples.x3 10 (0, 10)%Q false)).
  - lia.
  - right; reflexivity.
Defined.

Lemma histogram_weighted_reaches_kernel_iff_witness :
  dtype more_examples.w3_int = int64 /\
  shape more_examples.x3_f32 = shape more_examples.w3_int /\
  calls (examples.histogram more_examples.x3_f32 10 (0, 10)%Q
           (Some more_examples.w3_int) true) <> [].
Proof.
  split; [reflexivity |]. split; [reflexivity |].
  apply (proj1 (histogram_weighted_reaches_kernel_iff jits.run1
                  (jits.run2 jits.isqrt) jits.exact_cast
                  more_examples.x3_f32 more_examples.w3_int 10 (0, 10)%Q true)).
  split; [lia |]. split; [reflexivity | left; reflexivity].
Defined.

Lemma mwv_histogram_reaches_kernel_iff_witness :
  dtype examples.x2_int = int64 /\
  shape examples.x2_int = [2%nat] /\
  shape examples.w2x2 = [2%nat; 2%nat] /\
  calls (examples.mwv_histogram examples.x2_int examples.w2x2 1 (0, 2)%Q false)
  <> [].
Proof.
  split; [reflexivity |]. split; [reflexivity |]. split; [reflexivity |].
  apply (proj1 (mwv_histogram_reaches_kernel_iff (jits.run2 jits.isqrt)
                  jits.exact_cast examples.x2_int examples.w2x2 1
                  (0, 2)%Q false)).
  split; [lia |]. split; [| left; reflexivity].
  exists 2%nat, [], [2%nat]. split; reflexivity.
Defined.

Lemma histogram_exception_causes_witness :
  result (examples.histogram examples.x3_int 10 (0, 10)%Q
            (Some examples.w3_column) false)
  = Raised (AssertionError "x and weights must have identical shape") /\
  calls (examples.histogram examples.x3_int 10 (0, 10)%Q
           (Some examples.w3_column) false) = [] /\
  exists w,
    Some examples.w3_column = Some w /\ shape examples.x3_int <> shape w.
Proof.
  split; [vm_compute; reflexivity |].
  destruct (histogram_exception_causes jits.run1 (jits.run2 jits.isqrt)
              jits.exact_cast examples.x3_int 10 (0, 10)%Q
              (Some examples.w3_column) false
              (AssertionError "x and weights must have identical shape")
              ltac:(vm_compute; reflexivity))
    as [(Hcalls & [[[msg H] _] | [(_ & _ & H) | (H & _)]])
       | (_ & _ & _ & [(H & _) | (w & k & _ & H & _)])].
  - discriminate.
  - split; [exact Hcalls | exact H].
  - discriminate.
  - discriminate.
  - vm_compute in H. discriminate.
Defined.

Lemma mwv_histogram_exception_causes_witness :
  result (examples.mwv_histogram examples.x3_int examples.w2x2 1 (0, 2)%Q false)
  = Raised (AssertionError "weights shape is not compatible with x") /\
  calls (examples.mwv_histogram examples.x3_int examples.w2x2 1 (0, 2)%Q false)
  = [] /\
  exists n sx n' sw,
    shape examples.x3_int = n :: sx /\ shape examples.w2x2 = n' :: sw /\
    n <> n'.
Proof.
  split; [vm_compute; reflexivity |].
  destruct (mwv_histogram_exception_causes (jits.run2 jits.isqrt)
              jits.exact_cast examples.x3_int examples.w2x2 1 (0, 2)%Q false
              (AssertionError "weights shape is not compatible with x")
              ltac:(vm_compute; reflexivity))
    as [(Hcalls & [[[msg H] _] | [(H & _) | [(_ & _ & H) | (H & _)]]])
       | (_ & _ & _ & k & H & _)].
  - discriminate.
  - discriminate.
  - split; [exact Hcalls | exact H].
  - discriminate.
  - vm_compute in H. discriminate.
Defined.

Lemma flow_is_only_forwarded_witness :
  In (Call2 _hfloat64_weighted examples.x3
        (astype jits.exact_cast examples.w3 float64) 1 0%Q 2%Q false)
     (calls (examples.histogram examples.x3 1 (0, 2)%Q (Some examples.w3) false))
  /\
  calls (examples.histogram examples.x3 1 (0, 2)%Q (Some examples.w3) true)
  = [Call2 _hfloat64_weighted examples.x3
       (astype jits.exact_cast examples.w3 float64) 1 0%Q 2%Q true].
Proof.
  split; [vm_compute; left; reflexivity |].
  apply (proj2 (proj2 (proj1 (flow_is_only_forwarded jits.run1
                                (jits.run2 jits.isqrt) jits.exact_cast
                                examples.x3 1 (0, 2)%Q false true)
                             (Some examples.w3)))
               _hfloat64_weighted examples.x3
               (astype jits.exact_cast examples.w3 float64) 1 0%Q 2%Q false).
  vm_compute; left; reflexivity.
Defined.
